(** * The re-ID training entry point ([main.py]) as a Rocq model

    [main.py] is orchestration glue: it resolves a configuration, builds a
    data manager, a model, an optimizer and a scheduler, optionally loads
    weights or resumes from a checkpoint, selects one engine and runs it.

    The model keeps the control flow of the source.  Every call that leaves
    [main.py] is recorded as an [Event]; a computation is a pair of the
    events it emitted and either the exception it raised or its value. *)

From Stdlib Require Import String Ascii List ZArith Bool Lia PrimFloat.
Import ListNotations.
Open Scope string_scope.
Open Scope Z_scope.

(** ** Python values that are only passed along *)

Definition float := PrimFloat.float.

(** A tensor is never inspected by [main.py]; a state dict maps parameter
    names to tensors. *)
Definition Tensor := list float.
Definition StateDict := list (string * Tensor).

Inductive Value :=
| VNone
| VBool (b : bool)
| VInt (n : Z)
| VFloat (x : float)
| VStr (s : string)
| VList (l : list string).

(** Keyword arguments ([**kwargs]) as an ordered dict. *)
Definition Kwargs := list (string * Value).

(** Truth value of a [str] and of an optional list, as [if x:] tests it. *)
Definition str_truthy (s : string) : bool :=
  match s with EmptyString => false | String _ _ => true end.

Definition list_truthy {A : Type} (l : option (list A)) : bool :=
  match l with Some (_ :: _) => true | _ => false end.

(** ** The configuration node

    The options read by [main.py], and those the engine's [run]
    configuration names. *)

Record SoftmaxCfg := {
  softmax_label_smooth : bool
}.

Record TripletCfg := {
  triplet_margin : float;
  triplet_weight_t : float;
  triplet_weight_x : float;
  triplet_metric : string;
  triplet_ranked_loss : bool;
  triplet_ms_loss : bool
}.

Record CenterCfg := {
  center_weight_t : float;
  center_weight_x : float;
  center_weight_c : float;
  center_feature_dim : Z;
  center_num_features : Z
}.

Record OhemCfg := {
  ohem_weight_t : float;
  ohem_weight_x : float;
  ohem_weight_f : float
}.

Record LossCfg := {
  loss_name : string;
  loss_softmax : SoftmaxCfg;
  loss_triplet : TripletCfg;
  loss_center : CenterCfg;
  loss_ohem : OhemCfg
}.

Record DataCfg := {
  data_is_train : bool;
  data_type : string;
  data_root : string;
  data_sources : list string;
  data_targets : list string;
  data_transforms : list string;
  data_save_dir : string
}.

Record ModelCfg := {
  model_name : string;
  model_pretrained : bool;
  model_load_weights : string;
  model_resume : string
}.

Record TrainCfg := {
  train_seed : Z;
  train_start_epoch : Z;
  train_max_epoch : Z;
  train_print_freq : Z;
  train_fixbase_epoch : Z;
  train_open_layers : list string
}.

Record TestCfg := {
  test_evaluate : bool;
  test_dist_metric : string;
  test_eval_freq : Z
}.

Record Config := {
  use_gpu : bool;
  data : DataCfg;
  loss : LossCfg;
  model : ModelCfg;
  train : TrainCfg;
  test : TestCfg
}.

(** Attribute assignment on the (mutable) configuration node. *)
Definition set_use_gpu (cfg : Config) (v : bool) : Config :=
  {| use_gpu := v; data := cfg.(data); loss := cfg.(loss);
     model := cfg.(model); train := cfg.(train); test := cfg.(test) |}.

Definition set_data (cfg : Config) (d : DataCfg) : Config :=
  {| use_gpu := cfg.(use_gpu); data := d; loss := cfg.(loss);
     model := cfg.(model); train := cfg.(train); test := cfg.(test) |}.

Definition set_data_root (cfg : Config) (v : string) : Config :=
  let d := cfg.(data) in
  set_data cfg
    {| data_is_train := d.(data_is_train); data_type := d.(data_type);
       data_root := v; data_sources := d.(data_sources);
       data_targets := d.(data_targets);
       data_transforms := d.(data_transforms);
       data_save_dir := d.(data_save_dir) |}.

Definition set_data_sources (cfg : Config) (v : list string) : Config :=
  let d := cfg.(data) in
  set_data cfg
    {| data_is_train := d.(data_is_train); data_type := d.(data_type);
       data_root := d.(data_root); data_sources := v;
       data_targets := d.(data_targets);
       data_transforms := d.(data_transforms);
       data_save_dir := d.(data_save_dir) |}.

Definition set_data_targets (cfg : Config) (v : list string) : Config :=
  let d := cfg.(data) in
  set_data cfg
    {| data_is_train := d.(data_is_train); data_type := d.(data_type);
       data_root := d.(data_root); data_sources := d.(data_sources);
       data_targets := v;
       data_transforms := d.(data_transforms);
       data_save_dir := d.(data_save_dir) |}.

Definition set_data_transforms (cfg : Config) (v : list string) : Config :=
  let d := cfg.(data) in
  set_data cfg
    {| data_is_train := d.(data_is_train); data_type := d.(data_type);
       data_root := d.(data_root); data_sources := d.(data_sources);
       data_targets := d.(data_targets);
       data_transforms := v;
       data_save_dir := d.(data_save_dir) |}.

Definition set_train_start_epoch (cfg : Config) (v : Z) : Config :=
  let t := cfg.(train) in
  {| use_gpu := cfg.(use_gpu); data := cfg.(data); loss := cfg.(loss);
     model := cfg.(model);
     train := {| train_seed := t.(train_seed); train_start_epoch := v;
                 train_max_epoch := t.(train_max_epoch);
                 train_print_freq := t.(train_print_freq);
                 train_fixbase_epoch := t.(train_fixbase_epoch);
                 train_open_layers := t.(train_open_layers) |};
     test := cfg.(test) |}.

(** ** Objects built by the collaborators *)

Record DataManager := {
  dm_kwargs : Kwargs;
  num_train_pids : Z
}.

(** The keyword arguments of [build_model] (lines 136-142). *)
Record BuildModelArgs := {
  bm_name : string;
  bm_num_classes : Z;
  bm_loss : string;
  bm_pretrained : bool;
  bm_use_gpu : bool
}.

(** A model handle: how it was built, its current weights, and whether it
    has been wrapped by [nn.DataParallel(...).cuda()]. *)
Record Model := {
  built_with : BuildModelArgs;
  state_dict : StateDict;
  data_parallel_cuda : bool
}.

Record Optimizer := {
  optim_kwargs : Kwargs;
  optim_state : StateDict
}.

Record Scheduler := {
  sched_kwargs : Kwargs
}.

(** ** The five engines and the arguments their constructors receive *)

Record SoftmaxArgs := {
  sx_scheduler : Scheduler;
  sx_use_gpu : bool;
  sx_label_smooth : bool
}.

Record TripletArgs := {
  tr_margin : float;
  tr_weight_t : float;
  tr_weight_x : float;
  tr_scheduler : Scheduler;
  tr_use_gpu : bool;
  tr_metric : string;
  tr_label_smooth : bool;
  tr_ranked_loss : bool;
  tr_ms_loss : bool
}.

Record CenterArgs := {
  ce_margin : float;
  ce_weight_t : float;
  ce_weight_x : float;
  ce_weight_c : float;
  ce_scheduler : Scheduler;
  ce_use_gpu : bool;
  ce_metric : string;
  ce_feature_dim : Z;
  ce_label_smooth : bool;
  ce_num_features : Z
}.

Record OhemArgs := {
  oh_margin : float;
  oh_weight_t : float;
  oh_weight_x : float;
  oh_weight_f : float;
  oh_scheduler : Scheduler;
  oh_use_gpu : bool;
  oh_metric : string;
  oh_label_smooth : bool
}.

Inductive Engine :=
| ImageSoftmaxEngine (datamanager : DataManager) (model : Model)
    (optimizer : Optimizer) (kw : SoftmaxArgs)
| ImageTripletEngine (datamanager : DataManager) (model : Model)
    (optimizer : Optimizer) (kw : TripletArgs)
| ImageCenterEngine (datamanager : DataManager) (model : Model)
    (optimizer : Optimizer) (kw : CenterArgs)
| ImageOHEMEngine (datamanager : DataManager) (model : Model)
    (optimizer : Optimizer) (kw : OhemArgs)
| InfenerceEngine (datamanager : DataManager) (model : Model)
    (use_gpu : bool).

Inductive EngineKind := KSoftmax | KTriplet | KCenter | KOHEM | KInference.

Definition engine_kind (e : Engine) : EngineKind :=
  match e with
  | ImageSoftmaxEngine _ _ _ _ => KSoftmax
  | ImageTripletEngine _ _ _ _ => KTriplet
  | ImageCenterEngine _ _ _ _ => KCenter
  | ImageOHEMEngine _ _ _ _ => KOHEM
  | InfenerceEngine _ _ _ => KInference
  end.

Definition engine_use_gpu (e : Engine) : bool :=
  match e with
  | ImageSoftmaxEngine _ _ _ kw => kw.(sx_use_gpu)
  | ImageTripletEngine _ _ _ kw => kw.(tr_use_gpu)
  | ImageCenterEngine _ _ _ kw => kw.(ce_use_gpu)
  | ImageOHEMEngine _ _ _ kw => kw.(oh_use_gpu)
  | InfenerceEngine _ _ g => g
  end.

Definition engine_model (e : Engine) : Model :=
  match e with
  | ImageSoftmaxEngine _ m _ _ | ImageTripletEngine _ m _ _
  | ImageCenterEngine _ m _ _ | ImageOHEMEngine _ m _ _
  | InfenerceEngine _ m _ => m
  end.

Definition engine_datamanager (e : Engine) : DataManager :=
  match e with
  | ImageSoftmaxEngine d _ _ _ | ImageTripletEngine d _ _ _
  | ImageCenterEngine d _ _ _ | ImageOHEMEngine d _ _ _
  | InfenerceEngine d _ _ => d
  end.

Definition engine_optimizer (e : Engine) : option Optimizer :=
  match e with
  | ImageSoftmaxEngine _ _ o _ | ImageTripletEngine _ _ o _
  | ImageCenterEngine _ _ o _ | ImageOHEMEngine _ _ o _ => Some o
  | InfenerceEngine _ _ _ => None
  end.

Definition engine_scheduler (e : Engine) : option Scheduler :=
  match e with
  | ImageSoftmaxEngine _ _ _ kw => Some kw.(sx_scheduler)
  | ImageTripletEngine _ _ _ kw => Some kw.(tr_scheduler)
  | ImageCenterEngine _ _ _ kw => Some kw.(ce_scheduler)
  | ImageOHEMEngine _ _ _ kw => Some kw.(oh_scheduler)
  | InfenerceEngine _ _ _ => None
  end.

(** The keyword arguments of [engine.run]. *)
Record RunKwargs := {
  run_save_dir : string;
  run_max_epoch : Z;
  run_start_epoch : Z;
  run_print_freq : Z;
  run_eval_freq : Z;
  run_fixbase_epoch : Z;
  run_open_layers : list string;
  run_test_only : bool;
  run_dist_metric : string
}.

(** ** Effects *)

Inductive Event :=
| CudaIsAvailable (result : bool)
| MergeFromFile (path : string)
| MergeFromList (opts : list string)
| SetRandomSeed (seed : Z)
| SetStdout (log_path : string)
| Print (text : string)
| NewImageDataManager (kwargs : Kwargs)
| BuildModel (a : BuildModelArgs)
| CheckIsfile (path : string) (result : bool)
| LoadPretrainedWeights (path : string)
| Warn (text : string)
| DataParallelCuda
| BuildOptimizer (kwargs : Kwargs)
| BuildLrScheduler (kwargs : Kwargs)
| ResumeFromCheckpoint (path : string)
| NewEngine (e : Engine)
| EngineRun (e : Engine) (kw : RunKwargs).

Inductive Exn :=
| UnboundLocalError (name : string)
| CudaError
| CorruptCheckpoint (path : string).

(** A computation: the events emitted, then an exception or a value. *)
Definition M (A : Type) : Type := (list Event * (Exn + A))%type.

Definition ret {A : Type} (a : A) : M A := ([], inr a).

Definition raise {A : Type} (e : Exn) : M A := ([], inl e).

Definition emit (ev : Event) : M unit := ([ev], inr tt).

Definition bind {A B : Type} (m : M A) (f : A -> M B) : M B :=
  match m with
  | (t1, inl e) => (t1, inl e)
  | (t1, inr a) => let '(t2, r) := f a in ((t1 ++ t2)%list, r)
  end.

Declare Scope py_scope.
Delimit Scope py_scope with py.
Notation "x <- m ;; k" := (bind m (fun x => k))
  (at level 61, m at next level, right associativity) : py_scope.
Notation "m ;; k" := (bind m (fun _ => k))
  (at level 61, right associativity) : py_scope.
Open Scope py_scope.

Definition trace {A : Type} (m : M A) : list Event := fst m.
Definition outcome {A : Type} (m : M A) : Exn + A := snd m.

(** Calling a constructor of the [engine] module. *)
Definition new_engine (e : Engine) : M Engine :=
  emit (NewEngine e) ;; ret e.

(** ** [build_engine] (lines 29-92)

    The local [engine] is bound by at most one branch; [return engine]
    raises [UnboundLocalError] when no branch bound it. *)
Definition build_engine (cfg : Config) (datamanager : DataManager)
    (model : Model) (optimizer : Optimizer) (scheduler : Scheduler)
  : M Engine :=
  engine <-
    (if cfg.(data).(data_is_train) then
       if (cfg.(loss).(loss_name) =? "softmax")%string then
         e <- new_engine (ImageSoftmaxEngine datamanager model optimizer
           {| sx_scheduler := scheduler;
              sx_use_gpu := cfg.(use_gpu);
              sx_label_smooth := cfg.(loss).(loss_softmax).(softmax_label_smooth) |}) ;;
         ret (Some e)
       else if (cfg.(loss).(loss_name) =? "triplet")%string then
         e <- new_engine (ImageTripletEngine datamanager model optimizer
           {| tr_margin := cfg.(loss).(loss_triplet).(triplet_margin);
              tr_weight_t := cfg.(loss).(loss_triplet).(triplet_weight_t);
              tr_weight_x := cfg.(loss).(loss_triplet).(triplet_weight_x);
              tr_scheduler := scheduler;
              tr_use_gpu := cfg.(use_gpu);
              tr_metric := cfg.(loss).(loss_triplet).(triplet_metric);
              tr_label_smooth := cfg.(loss).(loss_softmax).(softmax_label_smooth);
              tr_ranked_loss := cfg.(loss).(loss_triplet).(triplet_ranked_loss);
              tr_ms_loss := cfg.(loss).(loss_triplet).(triplet_ms_loss) |}) ;;
         ret (Some e)
       else if (cfg.(loss).(loss_name) =? "center")%string then
         e <- new_engine (ImageCenterEngine datamanager model optimizer
           {| ce_margin := cfg.(loss).(loss_triplet).(triplet_margin);
              ce_weight_t := cfg.(loss).(loss_center).(center_weight_t);
              ce_weight_x := cfg.(loss).(loss_center).(center_weight_x);
              ce_weight_c := cfg.(loss).(loss_center).(center_weight_c);
              ce_scheduler := scheduler;
              ce_use_gpu := cfg.(use_gpu);
              ce_metric := cfg.(loss).(loss_triplet).(triplet_metric);
              ce_feature_dim := cfg.(loss).(loss_center).(center_feature_dim);
              ce_label_smooth := cfg.(loss).(loss_softmax).(softmax_label_smooth);
              ce_num_features := cfg.(loss).(loss_center).(center_num_features) |}) ;;
         ret (Some e)
       else if (cfg.(loss).(loss_name) =? "ohem")%string then
         e <- new_engine (ImageOHEMEngine datamanager model optimizer
           {| oh_margin := cfg.(loss).(loss_triplet).(triplet_margin);
              oh_weight_t := cfg.(loss).(loss_ohem).(ohem_weight_t);
              oh_weight_x := cfg.(loss).(loss_ohem).(ohem_weight_x);
              oh_weight_f := cfg.(loss).(loss_ohem).(ohem_weight_f);
              oh_scheduler := scheduler;
              oh_use_gpu := cfg.(use_gpu);
              oh_metric := cfg.(loss).(loss_triplet).(triplet_metric);
              oh_label_smooth := cfg.(loss).(loss_softmax).(softmax_label_smooth) |}) ;;
         ret (Some e)
       else
         ret None
     else
       e <- new_engine (InfenerceEngine datamanager model cfg.(use_gpu)) ;;
       ret (Some e)) ;;
  match engine with
  | Some e => ret e
  | None => raise (UnboundLocalError "engine")
  end.

(** ** The process environment

    What the run reads from outside [main.py]: the device probe, the
    clock, the file system, and the collaborators whose results only
    depend on their arguments. *)

Record CheckpointRecord := {
  ckpt_model_weights : StateDict;
  ckpt_optimizer_state : StateDict;
  ckpt_scheduler_state : StateDict;
  ckpt_epoch : Z;
  ckpt_best_metric : float
}.

Inductive File :=
| CheckpointFile (r : CheckpointRecord)
| OtherFile.

Record World := {
  w_cuda_is_available : bool;
  w_strftime : string;
  w_files : string -> option File;
  w_get_default_config : Config;
  w_merge_from_file : string -> Config -> Config;
  w_merge_from_list : list string -> Config -> Config;
  w_str_cfg : Config -> string;
  w_collect_env_info : string;
  w_imagedata_kwargs : Config -> Kwargs;
  w_optimizer_kwargs : Config -> Kwargs;
  w_lr_scheduler_kwargs : Config -> Kwargs;
  w_num_train_pids : Kwargs -> Z;
  w_initial_state_dict : BuildModelArgs -> StateDict
}.

(** The parsed command line (lines 107-115). *)
Record Args := {
  config_file : string;
  sources : option (list string);
  targets : option (list string);
  transforms : option (list string);
  root : string;
  opts : list string
}.

Definition from_option {A : Type} (d : A) (o : option A) : A :=
  match o with Some a => a | None => d end.

(** ** Library calls *)

(** [torch.cuda.is_available()]. *)
Definition cuda_is_available (w : World) : M bool :=
  emit (CudaIsAvailable w.(w_cuda_is_available)) ;;
  ret w.(w_cuda_is_available).

(** [cfg.merge_from_file(path)] and [cfg.merge_from_list(opts)]. *)
Definition merge_from_file (w : World) (cfg : Config) (path : string)
  : M Config :=
  emit (MergeFromFile path) ;; ret (w.(w_merge_from_file) path cfg).

Definition merge_from_list (w : World) (cfg : Config) (l : list string)
  : M Config :=
  emit (MergeFromList l) ;; ret (w.(w_merge_from_list) l cfg).

(** [print(text)]. *)
Definition print (text : string) : M unit := emit (Print text).

Definition nl : string := String (Ascii.ascii_of_nat 10) EmptyString.

(** [os.path.join(a, b)] on POSIX. *)
Definition starts_with_sep (s : string) : bool :=
  match s with
  | String c _ => Ascii.eqb c "/"%char
  | EmptyString => false
  end.

Fixpoint ends_with_sep (s : string) : bool :=
  match s with
  | EmptyString => false
  | String c EmptyString => Ascii.eqb c "/"%char
  | String _ s' => ends_with_sep s'
  end.

Definition osp_join (a b : string) : string :=
  if starts_with_sep b then b
  else if negb (str_truthy a) || ends_with_sep a then a ++ b
  else a ++ "/" ++ b.

(** [nn.DataParallel(model).cuda()]: moving the parameters to the GPU
    raises when no CUDA device is present. *)
Definition DataParallel_cuda (w : World) (m : Model) : M Model :=
  emit DataParallelCuda ;;
  if w.(w_cuda_is_available) then
    ret {| built_with := m.(built_with); state_dict := m.(state_dict);
           data_parallel_cuda := true |}
  else raise CudaError.

(** ** Calls into the other modules of the repository *)

(** [set_random_seed(seed)] seeds the process-wide generators. *)
Definition set_random_seed (seed : Z) : M unit := emit (SetRandomSeed seed).

(** [sys.stdout = Logger(path)] (line 127). *)
Definition set_stdout_Logger (path : string) : M unit :=
  emit (SetStdout path).

Definition ImageDataManager (w : World) (kwargs : Kwargs) : M DataManager :=
  emit (NewImageDataManager kwargs) ;;
  ret {| dm_kwargs := kwargs;
         num_train_pids := w.(w_num_train_pids) kwargs |}.

Definition build_model (w : World) (a : BuildModelArgs) : M Model :=
  emit (BuildModel a) ;;
  ret {| built_with := a;
         state_dict := w.(w_initial_state_dict) a;
         data_parallel_cuda := false |}.

(** [check_isfile(path)]: whether [path] names an existing file. *)
Definition is_file (w : World) (path : string) : bool :=
  match w.(w_files) path with Some _ => true | None => false end.

Definition check_isfile (w : World) (path : string) : M bool :=
  emit (CheckIsfile path (is_file w path)) ;; ret (is_file w path).

(** Modelled from the spec: [load_pretrained_weights] is not in [main.py].
    Section 4.4: partial restore is model-only, no optimizer; section 7: a
    malformed restore target degrades to a fresh start with a warning. *)
Definition load_pretrained_weights (w : World) (m : Model) (path : string)
  : M Model :=
  emit (LoadPretrainedWeights path) ;;
  match w.(w_files) path with
  | Some (CheckpointFile r) =>
      ret {| built_with := m.(built_with);
             state_dict := r.(ckpt_model_weights);
             data_parallel_cuda := m.(data_parallel_cuda) |}
  | _ => emit (Warn path) ;; ret m
  end.

(** Modelled from the spec: [build_optimizer] and [build_lr_scheduler] are
    not in [main.py].  Section 3: the optimization state is created at
    engine start or restored from a checkpoint; a created optimizer has no
    moment buffers yet. *)
Definition build_optimizer (m : Model) (kwargs : Kwargs) : M Optimizer :=
  emit (BuildOptimizer kwargs) ;;
  ret {| optim_kwargs := kwargs; optim_state := [] |}.

(** Modelled from the spec: see [build_optimizer]; the scheduler is built
    on the optimizer from its own keyword arguments. *)
Definition build_lr_scheduler (o : Optimizer) (kwargs : Kwargs)
  : M Scheduler :=
  emit (BuildLrScheduler kwargs) ;;
  ret {| sched_kwargs := kwargs |}.

(** What [resume_from_checkpoint(path, model, optimizer=optimizer)] leaves
    behind: its return value and the two objects it updates in place. *)
Record Resumed := {
  resumed_epoch : Z;
  resumed_model : Model;
  resumed_optimizer : Optimizer
}.

(** Modelled from the spec: [resume_from_checkpoint] is not in [main.py].
    Section 4.4: restore fails with [CorruptCheckpoint] when the target is
    malformed; section 4.2: the start epoch is the restored checkpoint's
    epoch+1.  The scheduler is not passed by [main.py], so it is not
    restored. *)
Definition resume_from_checkpoint (w : World) (path : string) (m : Model)
    (o : Optimizer) : M Resumed :=
  emit (ResumeFromCheckpoint path) ;;
  match w.(w_files) path with
  | Some (CheckpointFile r) =>
      ret {| resumed_epoch := r.(ckpt_epoch) + 1;
             resumed_model :=
               {| built_with := m.(built_with);
                  state_dict := r.(ckpt_model_weights);
                  data_parallel_cuda := m.(data_parallel_cuda) |};
             resumed_optimizer :=
               {| optim_kwargs := o.(optim_kwargs);
                  optim_state := r.(ckpt_optimizer_state) |} |}
  | _ => raise (CorruptCheckpoint path)
  end.

(** Modelled from the spec: [engine_run_kwargs] is not in [main.py].
    Section 4.2 enumerates the [run] configuration, section 6 the options
    it is read from. *)
Definition engine_run_kwargs (cfg : Config) : RunKwargs :=
  {| run_save_dir := cfg.(data).(data_save_dir);
     run_max_epoch := cfg.(train).(train_max_epoch);
     run_start_epoch := cfg.(train).(train_start_epoch);
     run_print_freq := cfg.(train).(train_print_freq);
     run_eval_freq := cfg.(test).(test_eval_freq);
     run_fixbase_epoch := cfg.(train).(train_fixbase_epoch);
     run_open_layers := cfg.(train).(train_open_layers);
     run_test_only := cfg.(test).(test_evaluate);
     run_dist_metric := cfg.(test).(test_dist_metric) |}.

(** [engine.run] applied to the keyword arguments (line 160). *)
Definition engine_run (e : Engine) (kw : RunKwargs) : M unit :=
  emit (EngineRun e kw).


(** ** [build_datamanager] (lines 25-26) *)
Definition build_datamanager (w : World) (cfg : Config) : M DataManager :=
  ImageDataManager w (w.(w_imagedata_kwargs) cfg).

(** ** [reset_config] (lines 95-103) *)
Definition reset_config (cfg : Config) (args : Args) : Config :=
  let cfg := if str_truthy args.(root)
             then set_data_root cfg args.(root) else cfg in
  let cfg := if list_truthy args.(sources)
             then set_data_sources cfg (from_option [] args.(sources))
             else cfg in
  let cfg := if list_truthy args.(targets)
             then set_data_targets cfg (from_option [] args.(targets))
             else cfg in
  if list_truthy args.(transforms)
  then set_data_transforms cfg (from_option [] args.(transforms))
  else cfg.

(** ** [main] (lines 106-160) *)

(** Lines 117-122: the configuration is resolved. *)
Definition resolve_config (w : World) (args : Args) : M Config :=
  let cfg := w.(w_get_default_config) in
  gpu <- cuda_is_available w ;;
  let cfg := set_use_gpu cfg gpu in
  cfg <- (if str_truthy args.(config_file)
          then merge_from_file w cfg args.(config_file)
          else ret cfg) ;;
  let cfg := reset_config cfg args in
  merge_from_list w cfg args.(opts).

(** Lines 125-126: the name of the log file. *)
Definition log_name (w : World) (cfg : Config) : string :=
  (if cfg.(test).(test_evaluate) then "test.log" else "train.log")
  ++ w.(w_strftime).

(** Lines 123-160: the run under the resolved configuration.  [model] is
    rebound on the way; the successive bindings are numbered. *)
Definition run_configured (w : World) (cfg : Config) : M unit :=
  set_random_seed cfg.(train).(train_seed) ;;
  set_stdout_Logger (osp_join cfg.(data).(data_save_dir) (log_name w cfg)) ;;
  print ("Show configuration" ++ nl ++ w.(w_str_cfg) cfg ++ nl) ;;
  print "Collecting env info ..." ;;
  print ("** System info **" ++ nl ++ w.(w_collect_env_info) ++ nl) ;;
  datamanager <- build_datamanager w cfg ;;
  print ("Building model: " ++ cfg.(model).(model_name)) ;;
  model0 <- build_model w
    {| bm_name := cfg.(model).(model_name);
       bm_num_classes := datamanager.(num_train_pids);
       bm_loss := cfg.(loss).(loss_name);
       bm_pretrained := cfg.(model).(model_pretrained);
       bm_use_gpu := cfg.(use_gpu) |} ;;
  load <- (if str_truthy cfg.(model).(model_load_weights)
           then check_isfile w cfg.(model).(model_load_weights)
           else ret false) ;;
  model1 <- (if load
             then load_pretrained_weights w model0
                    cfg.(model).(model_load_weights)
             else ret model0) ;;
  model2 <- (if cfg.(use_gpu)
             then DataParallel_cuda w model1
             else ret model1) ;;
  optimizer <- build_optimizer model2 (w.(w_optimizer_kwargs) cfg) ;;
  scheduler <- build_lr_scheduler optimizer
                 (w.(w_lr_scheduler_kwargs) cfg) ;;
  resume <- (if str_truthy cfg.(model).(model_resume)
             then check_isfile w cfg.(model).(model_resume)
             else ret false) ;;
  r <- (if resume
        then resume_from_checkpoint w cfg.(model).(model_resume)
               model2 optimizer
        else ret {| resumed_epoch := cfg.(train).(train_start_epoch);
                    resumed_model := model2;
                    resumed_optimizer := optimizer |}) ;;
  let cfg := if resume
             then set_train_start_epoch cfg r.(resumed_epoch) else cfg in
  print ("Building " ++ cfg.(loss).(loss_name) ++ "-engine for "
         ++ cfg.(data).(data_type) ++ "-reid") ;;
  engine <- build_engine cfg datamanager r.(resumed_model)
              r.(resumed_optimizer) scheduler ;;
  engine_run engine (engine_run_kwargs cfg).

Definition main (w : World) (args : Args) : M unit :=
  cfg <- resolve_config w args ;;
  run_configured w cfg.

(** ** Vocabulary of the statements *)

(** The loss names the configuration surface lists. *)
Definition supported_losses : list string :=
  ["softmax"; "triplet"; "center"; "ohem"].

Definition supported_loss (name : string) : bool :=
  existsb (String.eqb name) supported_losses.

(** The engine variant the specification names for a loss name. *)
Definition spec_variant (name : string) : option EngineKind :=
  if (name =? "softmax")%string then Some KSoftmax
  else if (name =? "triplet")%string then Some KTriplet
  else if (name =? "center")%string then Some KCenter
  else if (name =? "ohem")%string then Some KOHEM
  else None.

(** [build_engine] binds [engine] under this configuration. *)
Definition dispatch_ok (cfg : Config) : bool :=
  negb cfg.(data).(data_is_train) || supported_loss cfg.(loss).(loss_name).

(** A GPU is present whenever the configuration asks for one. *)
Definition device_ok (w : World) (cfg : Config) : bool :=
  implb cfg.(use_gpu) w.(w_cuda_is_available).

(** The option is unset, or does not name an existing file. *)
Definition not_a_file (w : World) (p : string) : Prop :=
  p = "" \/ w.(w_files) p = None.

(** The option names an existing file that holds the record [r]. *)
Definition names_checkpoint (w : World) (p : string) (r : CheckpointRecord)
  : Prop :=
  p <> "" /\ w.(w_files) p = Some (CheckpointFile r).

Definition resume_ok (w : World) (cfg : Config) : Prop :=
  not_a_file w cfg.(model).(model_resume) \/
  exists r, names_checkpoint w cfg.(model).(model_resume) r.

(** The configuration [main] works with from line 123 on, and the events
    of resolving it. *)
Definition resolved (w : World) (args : Args) : Config :=
  let cfg := set_use_gpu w.(w_get_default_config) w.(w_cuda_is_available) in
  let cfg := if str_truthy args.(config_file)
             then w.(w_merge_from_file) args.(config_file) cfg else cfg in
  w.(w_merge_from_list) args.(opts) (reset_config cfg args).

Definition resolve_events (w : World) (args : Args) : list Event :=
  (CudaIsAvailable w.(w_cuda_is_available)
   :: (if str_truthy args.(config_file)
       then [MergeFromFile args.(config_file)] else [])
   ++ [MergeFromList args.(opts)])%list.

(** Readings of a trace. *)
Definition probes (t : list Event) : list bool :=
  flat_map (fun ev => match ev with CudaIsAvailable r => [r] | _ => [] end) t.

Definition seeds_set (t : list Event) : list Z :=
  flat_map (fun ev => match ev with SetRandomSeed z => [z] | _ => [] end) t.

Definition stdouts_set (t : list Event) : list string :=
  flat_map (fun ev => match ev with SetStdout p => [p] | _ => [] end) t.

Definition datamanagers_built (t : list Event) : list Kwargs :=
  flat_map
    (fun ev => match ev with NewImageDataManager k => [k] | _ => [] end) t.

Definition models_built (t : list Event) : list BuildModelArgs :=
  flat_map (fun ev => match ev with BuildModel a => [a] | _ => [] end) t.

Definition engines_built (t : list Event) : list Engine :=
  flat_map (fun ev => match ev with NewEngine e => [e] | _ => [] end) t.

Definition run_calls (t : list Event) : list (Engine * RunKwargs) :=
  flat_map
    (fun ev => match ev with EngineRun e kw => [(e, kw)] | _ => [] end) t.

(** The callee an event stands for. *)
Definition call_name (ev : Event) : string :=
  match ev with
  | CudaIsAvailable _ => "torch.cuda.is_available"
  | MergeFromFile _ => "cfg.merge_from_file"
  | MergeFromList _ => "cfg.merge_from_list"
  | SetRandomSeed _ => "set_random_seed"
  | SetStdout _ => "Logger"
  | Print _ => "print"
  | NewImageDataManager _ => "ImageDataManager"
  | BuildModel _ => "build_model"
  | CheckIsfile _ _ => "check_isfile"
  | LoadPretrainedWeights _ => "load_pretrained_weights"
  | Warn _ => "warnings.warn"
  | DataParallelCuda => "nn.DataParallel.cuda"
  | BuildOptimizer _ => "build_optimizer"
  | BuildLrScheduler _ => "build_lr_scheduler"
  | ResumeFromCheckpoint _ => "resume_from_checkpoint"
  | NewEngine (ImageSoftmaxEngine _ _ _ _) => "ImageSoftmaxEngine"
  | NewEngine (ImageTripletEngine _ _ _ _) => "ImageTripletEngine"
  | NewEngine (ImageCenterEngine _ _ _ _) => "ImageCenterEngine"
  | NewEngine (ImageOHEMEngine _ _ _ _) => "ImageOHEMEngine"
  | NewEngine (InfenerceEngine _ _ _) => "InfenerceEngine"
  | EngineRun _ _ => "engine.run"
  end.

(** The run got through: the model, the optimizer and the scheduler were
    built, one engine was constructed and [run] was called on it. *)
Definition completes (r : M unit) : Prop :=
  outcome r = inr tt /\
  (exists a, models_built (trace r) = [a]) /\
  (exists kw, In (BuildOptimizer kw) (trace r)) /\
  (exists kw, In (BuildLrScheduler kw) (trace r)) /\
  (exists e kw, engines_built (trace r) = [e] /\
                run_calls (trace r) = [(e, kw)]).

(** What a call of [build_engine] can come to. *)
Inductive built_by (cfg : Config) (dm : DataManager) (m : Model)
    (o : Optimizer) (s : Scheduler) : M Engine -> Prop :=
| built_engine (e : Engine) :
    dispatch_ok cfg = true ->
    engine_datamanager e = dm ->
    engine_model e = m ->
    engine_use_gpu e = cfg.(use_gpu) ->
    (forall o', engine_optimizer e = Some o' -> o' = o) ->
    (forall s', engine_scheduler e = Some s' -> s' = s) ->
    built_by cfg dm m o s ([NewEngine e], inr e)
| built_unbound :
    dispatch_ok cfg = false ->
    built_by cfg dm m o s ([], inl (UnboundLocalError "engine")).

(** ** Sample inputs *)

Definition set_loss (cfg : Config) (l : LossCfg) : Config :=
  {| use_gpu := cfg.(use_gpu); data := cfg.(data); loss := l;
     model := cfg.(model); train := cfg.(train); test := cfg.(test) |}.

Definition set_loss_name (cfg : Config) (v : string) : Config :=
  let l := cfg.(loss) in
  set_loss cfg
    {| loss_name := v; loss_softmax := l.(loss_softmax);
       loss_triplet := l.(loss_triplet); loss_center := l.(loss_center);
       loss_ohem := l.(loss_ohem) |}.

Definition set_triplet_metric (cfg : Config) (v : string) : Config :=
  let l := cfg.(loss) in
  let t := l.(loss_triplet) in
  set_loss cfg
    {| loss_name := l.(loss_name); loss_softmax := l.(loss_softmax);
       loss_triplet :=
         {| triplet_margin := t.(triplet_margin);
            triplet_weight_t := t.(triplet_weight_t);
            triplet_weight_x := t.(triplet_weight_x);
            triplet_metric := v;
            triplet_ranked_loss := t.(triplet_ranked_loss);
            triplet_ms_loss := t.(triplet_ms_loss) |};
       loss_center := l.(loss_center); loss_ohem := l.(loss_ohem) |}.

Definition set_softmax_label_smooth (cfg : Config) (v : bool) : Config :=
  let l := cfg.(loss) in
  set_loss cfg
    {| loss_name := l.(loss_name);
       loss_softmax := {| softmax_label_smooth := v |};
       loss_triplet := l.(loss_triplet); loss_center := l.(loss_center);
       loss_ohem := l.(loss_ohem) |}.

Definition set_is_train (cfg : Config) (v : bool) : Config :=
  let d := cfg.(data) in
  set_data cfg
    {| data_is_train := v; data_type := d.(data_type);
       data_root := d.(data_root); data_sources := d.(data_sources);
       data_targets := d.(data_targets);
       data_transforms := d.(data_transforms);
       data_save_dir := d.(data_save_dir) |}.

Definition set_model_files (cfg : Config) (load_weights resume : string)
  : Config :=
  let m := cfg.(model) in
  {| use_gpu := cfg.(use_gpu); data := cfg.(data); loss := cfg.(loss);
     model := {| model_name := m.(model_name);
                 model_pretrained := m.(model_pretrained);
                 model_load_weights := load_weights;
                 model_resume := resume |};
     train := cfg.(train); test := cfg.(test) |}.

Definition set_train_seed (cfg : Config) (v : Z) : Config :=
  let t := cfg.(train) in
  {| use_gpu := cfg.(use_gpu); data := cfg.(data); loss := cfg.(loss);
     model := cfg.(model);
     train := {| train_seed := v;
                 train_start_epoch := t.(train_start_epoch);
                 train_max_epoch := t.(train_max_epoch);
                 train_print_freq := t.(train_print_freq);
                 train_fixbase_epoch := t.(train_fixbase_epoch);
                 train_open_layers := t.(train_open_layers) |};
     test := cfg.(test) |}.

(** A softmax training configuration on CPU, fresh start, 20 epochs. *)
Definition softmax_config : Config :=
  {| use_gpu := false;
     data := {| data_is_train := true; data_type := "image";
                data_root := "reid-data"; data_sources := ["market1501"];
                data_targets := ["market1501"];
                data_transforms := ["random_flip"];
                data_save_dir := "log" |};
     loss := {| loss_name := "softmax";
                loss_softmax := {| softmax_label_smooth := true |};
                loss_triplet :=
                  {| triplet_margin := 0.5%float;
                     triplet_weight_t := 1%float;
                     triplet_weight_x := 0.25%float;
                     triplet_metric := "euclidean";
                     triplet_ranked_loss := false;
                     triplet_ms_loss := false |};
                loss_center :=
                  {| center_weight_t := 1%float;
                     center_weight_x := 1%float;
                     center_weight_c := 0.125%float;
                     center_feature_dim := 2048;
                     center_num_features := 1 |};
                loss_ohem :=
                  {| ohem_weight_t := 1%float;
                     ohem_weight_x := 1%float;
                     ohem_weight_f := 0.5%float |} |};
     model := {| model_name := "resnet50"; model_pretrained := true;
                 model_load_weights := ""; model_resume := "" |};
     train := {| train_seed := 1; train_start_epoch := 0;
                 train_max_epoch := 20; train_print_freq := 20;
                 train_fixbase_epoch := 0;
                 train_open_layers := ["classifier"] |};
     test := {| test_evaluate := false; test_dist_metric := "euclidean";
                test_eval_freq := 5 |} |}.

Definition triplet_config : Config := set_loss_name softmax_config "triplet".
Definition center_config : Config := set_loss_name softmax_config "center".
Definition center_config_cosine : Config :=
  set_triplet_metric center_config "cosine".
Definition triplet_config_no_smoothing : Config :=
  set_softmax_label_smooth triplet_config false.
Definition focal_config : Config := set_loss_name softmax_config "focal".
Definition test_config : Config := set_is_train focal_config false.
Definition seed2_config : Config := set_train_seed softmax_config 2.

(** The checkpoint written after the tenth epoch (epoch index 9). *)
Definition checkpoint10 : CheckpointRecord :=
  {| ckpt_model_weights := [("classifier.weight", [0.5%float])];
     ckpt_optimizer_state := [("momentum_buffer", [0.25%float])];
     ckpt_scheduler_state := [];
     ckpt_epoch := 9;
     ckpt_best_metric := 0.75%float |}.

Definition sample_files (p : string) : option File :=
  if (p =? "log/model.pth.tar-10")%string then Some (CheckpointFile checkpoint10)
  else if (p =? "README.md")%string then Some OtherFile
  else None.

Definition resume_config : Config :=
  set_model_files softmax_config "" "log/model.pth.tar-10".
Definition finetune_config : Config :=
  set_model_files softmax_config "log/model.pth.tar-10" "".
Definition missing_files_config : Config :=
  set_model_files softmax_config "weights.pth" "last.pth".

(** [merge_from_list] on the option list [use_gpu <value>]: the key exists
    since line 118, so the merge overwrites it. *)
Definition merge_use_gpu_option (l : list string) (cfg : Config) : Config :=
  match l with
  | [k; v] =>
      if (k =? "use_gpu")%string then
        if (v =? "True")%string then set_use_gpu cfg true
        else if (v =? "False")%string then set_use_gpu cfg false
        else cfg
      else cfg
  | _ => cfg
  end.

(** A machine with the sample files, 751 training identities, and the given
    default configuration. *)
Definition sample_world (gpu : bool) (cfg : Config) : World :=
  {| w_cuda_is_available := gpu;
     w_strftime := "-2019-11-20-10-00-00";
     w_files := sample_files;
     w_get_default_config := cfg;
     w_merge_from_file := fun _ c => c;
     w_merge_from_list := merge_use_gpu_option;
     w_str_cfg := fun c => c.(model).(model_name);
     w_collect_env_info := "PyTorch";
     w_imagedata_kwargs := fun c => [("root", VStr c.(data).(data_root))];
     w_optimizer_kwargs := fun _ => [("optim", VStr "adam")];
     w_lr_scheduler_kwargs := fun _ => [("stepsize", VInt 20)];
     w_num_train_pids := fun _ => 751;
     w_initial_state_dict := fun _ => [("classifier.weight", [0%float])] |}.

Definition no_args : Args :=
  {| config_file := ""; sources := None; targets := None;
     transforms := None; root := ""; opts := [] |}.

Definition force_gpu_args : Args :=
  {| config_file := ""; sources := None; targets := None;
     transforms := None; root := ""; opts := ["use_gpu"; "True"] |}.

Definition sample_datamanager : DataManager :=
  {| dm_kwargs := [("root", VStr "reid-data")]; num_train_pids := 751 |}.

Definition sample_model : Model :=
  {| built_with := {| bm_name := "resnet50"; bm_num_classes := 751;
                      bm_loss := "softmax"; bm_pretrained := true;
                      bm_use_gpu := false |};
     state_dict := [("classifier.weight", [0%float])];
     data_parallel_cuda := false |}.

Definition sample_optimizer : Optimizer :=
  {| optim_kwargs := [("optim", VStr "adam")]; optim_state := [] |}.

Definition sample_scheduler : Scheduler :=
  {| sched_kwargs := [("stepsize", VInt 20)] |}.

(** ** Further readings of a trace *)

Definition file_merges (t : list Event) : list string :=
  flat_map (fun ev => match ev with MergeFromFile p => [p] | _ => [] end) t.

Definition list_merges (t : list Event) : list (list string) :=
  flat_map (fun ev => match ev with MergeFromList l => [l] | _ => [] end) t.

Definition prints (t : list Event) : list string :=
  flat_map (fun ev => match ev with Print s => [s] | _ => [] end) t.

Definition isfile_checks (t : list Event) : list (string * bool) :=
  flat_map
    (fun ev => match ev with CheckIsfile p r => [(p, r)] | _ => [] end) t.

Definition loads (t : list Event) : list string :=
  flat_map
    (fun ev => match ev with LoadPretrainedWeights p => [p] | _ => [] end) t.

Definition resumes (t : list Event) : list string :=
  flat_map
    (fun ev => match ev with ResumeFromCheckpoint p => [p] | _ => [] end) t.

Definition is_build_model (ev : Event) : bool :=
  match ev with BuildModel _ => true | _ => false end.

Definition is_load (ev : Event) : bool :=
  match ev with LoadPretrainedWeights _ => true | _ => false end.

Definition is_wrap (ev : Event) : bool :=
  match ev with DataParallelCuda => true | _ => false end.

Definition is_build_optimizer (ev : Event) : bool :=
  match ev with BuildOptimizer _ => true | _ => false end.

Definition is_build_lr_scheduler (ev : Event) : bool :=
  match ev with BuildLrScheduler _ => true | _ => false end.

Definition is_resume (ev : Event) : bool :=
  match ev with ResumeFromCheckpoint _ => true | _ => false end.

Definition is_new_engine (ev : Event) : bool :=
  match ev with NewEngine _ => true | _ => false end.

(** Every [b]-event of the trace has an [a]-event before it. *)
Fixpoint preceded_by (a b : Event -> bool) (t : list Event) : bool :=
  match t with
  | [] => true
  | ev :: t' => negb (b ev) && (if a ev then true else preceded_by a b t')
  end.

(** No [b]-event of the trace comes after an [a]-event. *)
Fixpoint never_after (a b : Event -> bool) (t : list Event) : bool :=
  match t with
  | [] => true
  | ev :: t' =>
      (if a ev then negb (existsb b t') else true) && never_after a b t'
  end.

(** Two command lines in a row: an option of the later one, when given,
    replaces that of the earlier one. *)
Definition later_args (a1 a2 : Args) : Args :=
  {| config_file := if str_truthy a2.(config_file)
                    then a2.(config_file) else a1.(config_file);
     sources := if list_truthy a2.(sources)
                then a2.(sources) else a1.(sources);
     targets := if list_truthy a2.(targets)
                then a2.(targets) else a1.(targets);
     transforms := if list_truthy a2.(transforms)
                   then a2.(transforms) else a1.(transforms);
     root := if str_truthy a2.(root) then a2.(root) else a1.(root);
     opts := (a1.(opts) ++ a2.(opts))%list |}.

Definition data_args : Args :=
  {| config_file := ""; sources := Some ["msmt17"; "dukemtmcreid"];
     targets := None; transforms := Some []; root := "/data"; opts := [] |}.

Definition target_args : Args :=
  {| config_file := ""; sources := Some ["market1501"];
     targets := Some ["cuhk03"]; transforms := None; root := "";
     opts := [] |}.



(** * Properties *)

Arguments String.append : simpl never.
Arguments osp_join : simpl never.
Arguments log_name : simpl never.
Arguments is_file : simpl never.

(** ** Strings and loss names *)

Lemma str_truthy_false (s : string) : str_truthy s = false <-> s = "".
Proof. destruct s; simpl; split; congruence. Qed.

Lemma str_truthy_true (s : string) : str_truthy s = true <-> s <> "".
Proof. destruct s; simpl; split; congruence. Qed.

Lemma supported_loss_In (name : string) :
  supported_loss name = true <-> In name supported_losses.
Proof.
  unfold supported_loss. rewrite existsb_exists. split.
  - intros (x & Hx & E). apply String.eqb_eq in E. now subst.
  - intros H. exists name. split; [assumption | apply String.eqb_refl].
Qed.

Lemma supported_loss_cases (name : string) :
  supported_loss name = true ->
  name = "softmax" \/ name = "triplet" \/ name = "center" \/ name = "ohem".
Proof.
  intros H. apply supported_loss_In in H. simpl in H.
  intuition (auto using eq_sym).
Qed.

Lemma unsupported_loss_tests (name : string) :
  supported_loss name = false ->
  (name =? "softmax")%string = false /\ (name =? "triplet")%string = false /\
  (name =? "center")%string = false /\ (name =? "ohem")%string = false.
Proof.
  unfold supported_loss. simpl. rewrite !orb_false_iff. tauto.
Qed.

(** ** [build_engine] *)

Lemma build_engine_built_by cfg dm m o s :
  built_by cfg dm m o s (build_engine cfg dm m o s).
Proof.
  unfold build_engine.
  destruct (data_is_train (data cfg)) eqn:Ht.
  - destruct (supported_loss (loss_name (loss cfg))) eqn:Hs.
    + apply supported_loss_cases in Hs as Hn.
      destruct Hn as [Hn | [Hn | [Hn | Hn]]]; rewrite Hn; cbn;
        constructor; cbn; unfold dispatch_ok;
        try rewrite Hs, ?orb_true_r; try reflexivity; congruence.
    + destruct (unsupported_loss_tests _ Hs) as (E1 & E2 & E3 & E4).
      rewrite E1, E2, E3, E4. cbn. apply built_unbound.
      unfold dispatch_ok. now rewrite Ht, Hs.
  - cbn. constructor; cbn; unfold dispatch_ok;
      try rewrite Ht; try reflexivity; congruence.
Qed.

Lemma build_engine_unbound cfg dm m o s :
  cfg.(data).(data_is_train) = true ->
  supported_loss cfg.(loss).(loss_name) = false ->
  build_engine cfg dm m o s = ([], inl (UnboundLocalError "engine")).
Proof.
  intros Ht Hs. unfold build_engine. rewrite Ht.
  destruct (unsupported_loss_tests _ Hs) as (E1 & E2 & E3 & E4).
  now rewrite E1, E2, E3, E4.
Qed.

(** C1: with [data.is_train] true and a supported loss name, [build_engine]
    constructs one engine, of the variant the specification names for
    [loss.name], and returns it; the variant depends on the configuration
    only, not on the objects handed to the constructor. *)
Theorem build_engine_selects_named_variant cfg dm m o s :
  cfg.(data).(data_is_train) = true ->
  In cfg.(loss).(loss_name) supported_losses ->
  exists e,
    build_engine cfg dm m o s = ([NewEngine e], inr e) /\
    spec_variant cfg.(loss).(loss_name) = Some (engine_kind e) /\
    forall dm' m' o' s',
      exists e', build_engine cfg dm' m' o' s' = ([NewEngine e'], inr e')
                 /\ engine_kind e' = engine_kind e.
Proof.
  intros Ht Hn. unfold build_engine, spec_variant. rewrite Ht.
  simpl in Hn.
  destruct Hn as [Hn | [Hn | [Hn | [Hn | []]]]]; rewrite <- Hn; cbn;
    (eexists; split; [reflexivity | split; [reflexivity | ]]);
    intros; eexists; split; reflexivity.
Qed.

Lemma build_engine_selects_named_variant_witness :
  exists e,
    build_engine triplet_config sample_datamanager sample_model
      sample_optimizer sample_scheduler = ([NewEngine e], inr e) /\
    spec_variant "triplet" = Some (engine_kind e) /\
    forall dm' m' o' s',
      exists e', build_engine triplet_config dm' m' o' s'
                 = ([NewEngine e'], inr e')
                 /\ engine_kind e' = engine_kind e.
Proof.
  apply (build_engine_selects_named_variant triplet_config).
  - reflexivity.
  - simpl. auto.
Defined.

(** C9: with [data.is_train] false, [build_engine] returns the inference
    engine built from the data manager, the model and [use_gpu]; the loss
    options, the optimizer and the scheduler have no effect on it. *)
Theorem build_engine_inference cfg dm m o s :
  cfg.(data).(data_is_train) = false ->
  build_engine cfg dm m o s
  = ([NewEngine (InfenerceEngine dm m cfg.(use_gpu))],
     inr (InfenerceEngine dm m cfg.(use_gpu))) /\
  forall cfg' o' s',
    cfg'.(data).(data_is_train) = false ->
    cfg'.(use_gpu) = cfg.(use_gpu) ->
    build_engine cfg' dm m o' s' = build_engine cfg dm m o s.
Proof.
  intros Ht. unfold build_engine. rewrite Ht. split; [reflexivity | ].
  intros cfg' o' s' Ht' Hg. now rewrite Ht', Hg.
Qed.

Lemma build_engine_inference_witness :
  build_engine test_config sample_datamanager sample_model
    sample_optimizer sample_scheduler
  = ([NewEngine (InfenerceEngine sample_datamanager sample_model false)],
     inr (InfenerceEngine sample_datamanager sample_model false)) /\
  forall cfg' o' s',
    cfg'.(data).(data_is_train) = false ->
    cfg'.(use_gpu) = false ->
    build_engine cfg' sample_datamanager sample_model o' s'
    = build_engine test_config sample_datamanager sample_model
        sample_optimizer sample_scheduler.
Proof.
  apply (build_engine_inference test_config). reflexivity.
Defined.

(** C8 fails as stated: the centre engine takes its metric from
    [loss.triplet], and the triplet engine its label-smoothing flag from
    [loss.softmax].  Two configurations with the same [loss.center]
    subsection build different centre engines; two with the same
    [loss.triplet] subsection build different triplet engines. *)
Lemma engine_reads_foreign_subsection :
  (center_config.(loss).(loss_center)
   = center_config_cosine.(loss).(loss_center) /\
   outcome (build_engine center_config sample_datamanager sample_model
              sample_optimizer sample_scheduler)
   <> outcome (build_engine center_config_cosine sample_datamanager
                 sample_model sample_optimizer sample_scheduler)) /\
  (triplet_config.(loss).(loss_triplet)
   = triplet_config_no_smoothing.(loss).(loss_triplet) /\
   outcome (build_engine triplet_config sample_datamanager sample_model
              sample_optimizer sample_scheduler)
   <> outcome (build_engine triplet_config_no_smoothing sample_datamanager
                 sample_model sample_optimizer sample_scheduler)).
Proof.
  split; (split; [reflexivity | cbv; intro H; discriminate H]).
Qed.

(** C8, amended: each training engine takes its [weight_*] arguments (and
    the centre engine [feature_dim] and [num_features], the triplet engine
    [margin], [metric], [ranked_loss] and [ms_loss]) from its own
    subsection; the centre and OHEM engines take [margin] and [metric] from
    [loss.triplet], and every training engine takes the label-smoothing
    flag from [loss.softmax]. *)
Theorem engine_argument_sources cfg dm m o s :
  cfg.(data).(data_is_train) = true ->
  let l := cfg.(loss) in
  (l.(loss_name) = "softmax" ->
   exists kw,
     outcome (build_engine cfg dm m o s)
     = inr (ImageSoftmaxEngine dm m o kw) /\
     kw.(sx_label_smooth) = l.(loss_softmax).(softmax_label_smooth)) /\
  (l.(loss_name) = "triplet" ->
   exists kw,
     outcome (build_engine cfg dm m o s)
     = inr (ImageTripletEngine dm m o kw) /\
     kw.(tr_margin) = l.(loss_triplet).(triplet_margin) /\
     kw.(tr_weight_t) = l.(loss_triplet).(triplet_weight_t) /\
     kw.(tr_weight_x) = l.(loss_triplet).(triplet_weight_x) /\
     kw.(tr_metric) = l.(loss_triplet).(triplet_metric) /\
     kw.(tr_ranked_loss) = l.(loss_triplet).(triplet_ranked_loss) /\
     kw.(tr_ms_loss) = l.(loss_triplet).(triplet_ms_loss) /\
     kw.(tr_label_smooth) = l.(loss_softmax).(softmax_label_smooth)) /\
  (l.(loss_name) = "center" ->
   exists kw,
     outcome (build_engine cfg dm m o s)
     = inr (ImageCenterEngine dm m o kw) /\
     kw.(ce_weight_t) = l.(loss_center).(center_weight_t) /\
     kw.(ce_weight_x) = l.(loss_center).(center_weight_x) /\
     kw.(ce_weight_c) = l.(loss_center).(center_weight_c) /\
     kw.(ce_feature_dim) = l.(loss_center).(center_feature_dim) /\
     kw.(ce_num_features) = l.(loss_center).(center_num_features) /\
     kw.(ce_margin) = l.(loss_triplet).(triplet_margin) /\
     kw.(ce_metric) = l.(loss_triplet).(triplet_metric) /\
     kw.(ce_label_smooth) = l.(loss_softmax).(softmax_label_smooth)) /\
  (l.(loss_name) = "ohem" ->
   exists kw,
     outcome (build_engine cfg dm m o s)
     = inr (ImageOHEMEngine dm m o kw) /\
     kw.(oh_weight_t) = l.(loss_ohem).(ohem_weight_t) /\
     kw.(oh_weight_x) = l.(loss_ohem).(ohem_weight_x) /\
     kw.(oh_weight_f) = l.(loss_ohem).(ohem_weight_f) /\
     kw.(oh_margin) = l.(loss_triplet).(triplet_margin) /\
     kw.(oh_metric) = l.(loss_triplet).(triplet_metric) /\
     kw.(oh_label_smooth) = l.(loss_softmax).(softmax_label_smooth)).
Proof.
  intros Ht l. unfold build_engine. rewrite Ht. subst l.
  repeat split; intros Hn; rewrite Hn; cbn;
    eexists; (split; [reflexivity | cbn; repeat split]).
Qed.

Lemma engine_argument_sources_witness :
  exists kw,
    outcome (build_engine center_config_cosine sample_datamanager
               sample_model sample_optimizer sample_scheduler)
    = inr (ImageCenterEngine sample_datamanager sample_model
             sample_optimizer kw) /\
    kw.(ce_weight_c) = 0.125%float /\
    kw.(ce_margin) = 0.5%float /\
    kw.(ce_metric) = "cosine" /\
    kw.(ce_label_smooth) = true.
Proof.
  destruct (engine_argument_sources center_config_cosine sample_datamanager
              sample_model sample_optimizer sample_scheduler eq_refl)
    as (_ & _ & Hc & _).
  destruct (Hc eq_refl) as (kw & E & _ & _ & Hwc & _ & _ & Hm & Hme & Hl).
  exists kw. repeat split; assumption.
Defined.

(** ** [main] as its two phases *)

Lemma resolve_config_eq w args :
  resolve_config w args = (resolve_events w args, inr (resolved w args)).
Proof.
  unfold resolve_config, resolve_events, resolved.
  destruct (str_truthy (config_file args)); reflexivity.
Qed.

Lemma main_eq w args :
  main w args =
  ((resolve_events w args ++ trace (run_configured w (resolved w args)))%list,
   outcome (run_configured w (resolved w args))).
Proof.
  unfold main. rewrite resolve_config_eq. unfold bind, trace, outcome.
  now destruct (run_configured w (resolved w args)).
Qed.

Lemma main_trace w args :
  trace (main w args) =
  (resolve_events w args ++ trace (run_configured w (resolved w args)))%list.
Proof. now rewrite main_eq. Qed.

Lemma main_outcome w args :
  outcome (main w args) = outcome (run_configured w (resolved w args)).
Proof. now rewrite main_eq. Qed.

Lemma resolve_events_readings w args :
  probes (resolve_events w args) = [w.(w_cuda_is_available)] /\
  seeds_set (resolve_events w args) = [] /\
  stdouts_set (resolve_events w args) = [] /\
  datamanagers_built (resolve_events w args) = [] /\
  models_built (resolve_events w args) = [] /\
  engines_built (resolve_events w args) = [] /\
  run_calls (resolve_events w args) = [].
Proof.
  unfold resolve_events.
  destruct (str_truthy (config_file args)); cbn; repeat split.
Qed.

Lemma in_resolve_events w args ev :
  In ev (resolve_events w args) ->
  ev = CudaIsAvailable w.(w_cuda_is_available) \/
  ev = MergeFromFile args.(config_file) \/
  ev = MergeFromList args.(opts).
Proof.
  unfold resolve_events.
  destruct (str_truthy (config_file args)); cbn; intuition auto.
Qed.

(** [reset_config] writes the [data] options only. *)
Lemma reset_config_frame cfg args :
  (reset_config cfg args).(use_gpu) = cfg.(use_gpu) /\
  (reset_config cfg args).(loss) = cfg.(loss) /\
  (reset_config cfg args).(model) = cfg.(model) /\
  (reset_config cfg args).(train) = cfg.(train) /\
  (reset_config cfg args).(test) = cfg.(test).
Proof.
  unfold reset_config.
  destruct (str_truthy (root args)), (list_truthy (sources args)),
    (list_truthy (targets args)), (list_truthy (transforms args));
    repeat split.
Qed.

(** The calls of three runs, in order: a fresh softmax training on CPU; an
    evaluation on GPU whose two file options name a file that is no
    checkpoint; a triplet training started with a configuration file. *)
Example calls_of_fresh_run :
  map call_name (trace (main (sample_world false softmax_config) no_args))
  = ["torch.cuda.is_available"; "cfg.merge_from_list"; "set_random_seed";
     "Logger"; "print"; "print"; "print"; "ImageDataManager"; "print";
     "build_model"; "build_optimizer"; "build_lr_scheduler"; "print";
     "ImageSoftmaxEngine"; "engine.run"]
  /\ outcome (main (sample_world false softmax_config) no_args) = inr tt.
Proof. split; reflexivity. Qed.

Example calls_of_corrupt_resume :
  map call_name
    (trace (main (sample_world true
                    (set_model_files test_config "README.md" "README.md"))
              no_args))
  = ["torch.cuda.is_available"; "cfg.merge_from_list"; "set_random_seed";
     "Logger"; "print"; "print"; "print"; "ImageDataManager"; "print";
     "build_model"; "check_isfile"; "load_pretrained_weights";
     "warnings.warn"; "nn.DataParallel.cuda"; "build_optimizer";
     "build_lr_scheduler"; "check_isfile"; "resume_from_checkpoint"]
  /\ outcome
       (main (sample_world true
                (set_model_files test_config "README.md" "README.md"))
          no_args)
     = inl (CorruptCheckpoint "README.md").
Proof. split; reflexivity. Qed.

Example calls_with_config_file :
  map call_name
    (trace (main (sample_world false triplet_config)
              {| config_file := "configs/triplet.yaml";
                 sources := Some ["msmt17"]; targets := None;
                 transforms := None; root := "/data"; opts := [] |}))
  = ["torch.cuda.is_available"; "cfg.merge_from_file";
     "cfg.merge_from_list"; "set_random_seed";
     "Logger"; "print"; "print"; "print"; "ImageDataManager"; "print";
     "build_model"; "build_optimizer"; "build_lr_scheduler"; "print";
     "ImageTripletEngine"; "engine.run"]
  /\ datamanagers_built
       (trace (main (sample_world false triplet_config)
                 {| config_file := "configs/triplet.yaml";
                    sources := Some ["msmt17"]; targets := None;
                    transforms := None; root := "/data"; opts := [] |}))
     = [[("root", VStr "/data")]].
Proof. split; reflexivity. Qed.

Example osp_join_examples :
  osp_join "log" "train.log" = "log/train.log" /\
  osp_join "log/" "train.log" = "log/train.log" /\
  osp_join "" "train.log" = "train.log" /\
  osp_join "log" "/tmp/train.log" = "/tmp/train.log".
Proof. repeat split. Qed.

(** ** Symbolic execution of [run_configured] *)

Arguments build_engine : simpl never.

Ltac split_on b :=
  first [ match goal with H : b = _ |- _ => rewrite H end
        | destruct b eqn:? ].

Ltac exec_step :=
  match goal with
  | |- context [if ?b then _ else _] =>
      lazymatch b with
      | context [if _ then _ else _] => fail
      | context [match _ with _ => _ end] => fail
      | _ => split_on b
      end
  | |- context [match w_files ?w ?p with _ => _ end] =>
      first [ match goal with H : w_files w p = _ |- _ => rewrite H end
            | destruct (w_files w p) as [[?|]|] eqn:? ]
  | |- context [build_engine ?c ?d ?m ?o ?s] =>
      destruct (build_engine_built_by c d m o s)
  end.

Ltac exec :=
  unfold completes, run_configured, check_isfile, load_pretrained_weights,
    resume_from_checkpoint, DataParallel_cuda, build_datamanager,
    trace, outcome;
  repeat (cbn; exec_step); cbn.

Ltac find_in := cbn; repeat (first [ left; reflexivity | right ]).

(** Closing the cases the premises exclude. *)
Ltac absurd_case :=
  exfalso;
  unfold device_ok, dispatch_ok in *; cbn in *;
  repeat match goal with
         | H : ?b = true, H' : context [?b] |- _ => rewrite H in H'
         | H : ?b = false, H' : context [?b] |- _ => rewrite H in H'
         end;
  cbn in *; congruence.

Ltac the_engine :=
  match goal with
  | H : _ \/ False |- _ => destruct H as [H | []]
  | H : False |- _ => destruct H
  end.

(** Turning the premises on files into the tests the code performs. *)
Lemma not_a_file_tests w p :
  not_a_file w p -> str_truthy p = false \/ is_file w p = false.
Proof.
  intros [E | E]; [left; now apply str_truthy_false | right].
  unfold is_file. now rewrite E.
Qed.

Lemma names_checkpoint_tests w p r :
  names_checkpoint w p r ->
  str_truthy p = true /\ is_file w p = true /\
  w_files w p = Some (CheckpointFile r).
Proof.
  intros [N E]. repeat split; [now apply str_truthy_true | | assumption].
  unfold is_file. now rewrite E.
Qed.

Section ConfiguredRun.

Variable w : World.
Variable cfg : Config.

Lemma run_probes : probes (trace (run_configured w cfg)) = [].
Proof. exec; reflexivity. Qed.

Lemma run_no_gpu :
  cfg.(use_gpu) = false ->
  ~ In DataParallelCuda (trace (run_configured w cfg)) /\
  (forall a, In a (models_built (trace (run_configured w cfg))) ->
     a.(bm_use_gpu) = false) /\
  (forall e, In e (engines_built (trace (run_configured w cfg))) ->
     engine_use_gpu e = false /\
     (engine_model e).(data_parallel_cuda) = false) /\
  outcome (run_configured w cfg) <> inl CudaError /\
  (exists kw, In (BuildOptimizer kw) (trace (run_configured w cfg))).
Proof.
  intros Hg. exec.
  all: repeat split.
  all: try (intuition discriminate).
  all: try (eexists; find_in; fail).
  all: try (intros a [<- | []]; reflexivity).
  all: the_engine; subst.
  all: match goal with
       | H : engine_use_gpu ?e = _ |- engine_use_gpu ?e = _ =>
           rewrite H; exact Hg
       | H : engine_model ?e = _ |- context [engine_model ?e] =>
           rewrite H; reflexivity
       end.
Qed.


Lemma run_models :
  datamanagers_built (trace (run_configured w cfg))
  = [w.(w_imagedata_kwargs) cfg] /\
  models_built (trace (run_configured w cfg))
  = [{| bm_name := cfg.(model).(model_name);
        bm_num_classes :=
          w.(w_num_train_pids) (w.(w_imagedata_kwargs) cfg);
        bm_loss := cfg.(loss).(loss_name);
        bm_pretrained := cfg.(model).(model_pretrained);
        bm_use_gpu := cfg.(use_gpu) |}] /\
  (forall e, In e (engines_built (trace (run_configured w cfg))) ->
     (engine_model e).(built_with).(bm_num_classes)
     = (engine_datamanager e).(num_train_pids) /\
     (engine_datamanager e).(num_train_pids)
     = w.(w_num_train_pids) (w.(w_imagedata_kwargs) cfg)).
Proof.
  exec.
  all: repeat split.
  all: the_engine; subst.
  all: repeat match goal with
         | H : engine_model ?e = _ |- context [engine_model ?e] => rewrite H
         | H : engine_datamanager ?e = _ |- context [engine_datamanager ?e] =>
             rewrite H
         end; reflexivity.
Qed.

Lemma run_completes :
  device_ok w cfg = true -> dispatch_ok cfg = true -> resume_ok w cfg ->
  completes (run_configured w cfg).
Proof.
  intros Hd Hp Hr.
  destruct Hr as [Hr | [r Hr]];
    [ apply not_a_file_tests in Hr as [Hr | Hr]
    | apply names_checkpoint_tests in Hr as (Hr1 & Hr2 & Hr3) ].
  all: exec.
  all: try absurd_case.
  all: repeat split; try (eexists; find_in; fail);
       try (eexists; reflexivity); try (do 2 eexists; split; reflexivity).
Qed.

Lemma run_aborts :
  cfg.(data).(data_is_train) = true ->
  supported_loss cfg.(loss).(loss_name) = false ->
  (exists ex, outcome (run_configured w cfg) = inl ex) /\
  engines_built (trace (run_configured w cfg)) = [] /\
  run_calls (trace (run_configured w cfg)) = [] /\
  (device_ok w cfg = true -> resume_ok w cfg ->
   outcome (run_configured w cfg) = inl (UnboundLocalError "engine")).
Proof.
  intros Ht Hs.
  assert (Hp : dispatch_ok cfg = false)
    by (unfold dispatch_ok; now rewrite Ht, Hs).
  exec.
  all: try absurd_case.
  all: repeat split; try (eexists; reflexivity).
  all: intros Hd Hr.
  all: try absurd_case.
  all: destruct Hr as [Hr | [r' Hr]];
    [ apply not_a_file_tests in Hr as [Hr | Hr]
    | apply names_checkpoint_tests in Hr as (Hr1 & Hr2 & Hr3) ];
    congruence.
Qed.

(** The arguments of [run] and the engine's objects, with and without a
    checkpoint to resume from. *)
Lemma run_resumed (r : CheckpointRecord) :
  names_checkpoint w cfg.(model).(model_resume) r ->
  forall e kw, In (e, kw) (run_calls (trace (run_configured w cfg))) ->
    kw.(run_start_epoch) = r.(ckpt_epoch) + 1 /\
    kw.(run_max_epoch) = cfg.(train).(train_max_epoch) /\
    (engine_model e).(state_dict) = r.(ckpt_model_weights) /\
    (forall o, engine_optimizer e = Some o ->
       o = {| optim_kwargs := w.(w_optimizer_kwargs) cfg;
              optim_state := r.(ckpt_optimizer_state) |}) /\
    (forall s, engine_scheduler e = Some s ->
       s = {| sched_kwargs := w.(w_lr_scheduler_kwargs) cfg |}).
Proof.
  intros Hr. apply names_checkpoint_tests in Hr as (Hr1 & Hr2 & Hr3).
  exec.
  all: intros e' kw' Hin; the_engine.
  all: inversion Hin; subst e' kw'; clear Hin.
  all: repeat split; try assumption.
  all: match goal with H : engine_model ?e = _ |- _ => now rewrite H end.
Qed.

Lemma run_not_resumed :
  not_a_file w cfg.(model).(model_resume) ->
  (forall p, ~ In (ResumeFromCheckpoint p) (trace (run_configured w cfg))) /\
  forall e kw, In (e, kw) (run_calls (trace (run_configured w cfg))) ->
    kw = engine_run_kwargs cfg /\
    (forall o, engine_optimizer e = Some o ->
       o = {| optim_kwargs := w.(w_optimizer_kwargs) cfg;
              optim_state := [] |}) /\
    (forall s, engine_scheduler e = Some s ->
       s = {| sched_kwargs := w.(w_lr_scheduler_kwargs) cfg |}) /\
    (forall r, names_checkpoint w cfg.(model).(model_load_weights) r ->
       (engine_model e).(state_dict) = r.(ckpt_model_weights)) /\
    (not_a_file w cfg.(model).(model_load_weights) ->
       (engine_model e).(state_dict)
       = w.(w_initial_state_dict) (engine_model e).(built_with)).
Proof.
  intros Hr. apply not_a_file_tests in Hr as [Hr | Hr].
  all: exec.
  all: split; [ intros p; intuition discriminate | ].
  all: intros e' kw' Hin; the_engine.
  all: inversion Hin; subst e' kw'; clear Hin.
  all: repeat split; try assumption.
  all: try (intros r' Hl; apply names_checkpoint_tests in Hl as (? & ? & ?)).
  all: try (intros Hl; apply not_a_file_tests in Hl as [? | ?]).
  all: try congruence.
  all: match goal with H : engine_model ?e = _ |- _ => rewrite H end.
  all: cbn; congruence.
Qed.

Lemma run_not_loaded :
  not_a_file w cfg.(model).(model_load_weights) ->
  forall p, ~ In (LoadPretrainedWeights p) (trace (run_configured w cfg)).
Proof.
  intros Hl. apply not_a_file_tests in Hl as [Hl | Hl].
  all: exec.
  all: intros p; intuition discriminate.
Qed.

Lemma run_seed_and_log :
  exists rest,
    trace (run_configured w cfg)
    = SetRandomSeed cfg.(train).(train_seed)
      :: SetStdout (osp_join cfg.(data).(data_save_dir) (log_name w cfg))
      :: rest /\
    seeds_set rest = [] /\ stdouts_set rest = [].
Proof.
  exec.
  all: eexists; split; [reflexivity | split; reflexivity].
Qed.

End ConfiguredRun.

(** ** From the configured run to [main] *)

Lemma main_readings w args :
  let t := trace (run_configured w (resolved w args)) in
  probes (trace (main w args)) = (w.(w_cuda_is_available) :: probes t)%list /\
  seeds_set (trace (main w args)) = seeds_set t /\
  stdouts_set (trace (main w args)) = stdouts_set t /\
  datamanagers_built (trace (main w args)) = datamanagers_built t /\
  models_built (trace (main w args)) = models_built t /\
  engines_built (trace (main w args)) = engines_built t /\
  run_calls (trace (main w args)) = run_calls t.
Proof.
  intros t. rewrite main_trace. fold t.
  destruct (resolve_events_readings w args)
    as (E1 & E2 & E3 & E4 & E5 & E6 & E7).
  unfold probes, seeds_set, stdouts_set, datamanagers_built, models_built,
    engines_built, run_calls in *.
  rewrite !flat_map_app, E1, E2, E3, E4, E5, E6, E7. repeat split.
Qed.

Lemma in_main_trace w args ev :
  In ev (trace (main w args)) <->
  In ev (resolve_events w args) \/
  In ev (trace (run_configured w (resolved w args))).
Proof. rewrite main_trace. apply in_app_iff. Qed.

Lemma completes_main w args :
  completes (run_configured w (resolved w args)) -> completes (main w args).
Proof.
  unfold completes.
  destruct (main_readings w args) as (_ & _ & _ & _ & Em & Ee & Er).
  rewrite main_outcome, Em, Ee, Er.
  intros (Ho & Hm & (ko & Hko) & (ks & Hks) & He).
  repeat split; try assumption.
  - exists ko. apply in_main_trace. now right.
  - exists ks. apply in_main_trace. now right.
Qed.

(** ** The epochs of a run *)


(** ** The claims on [main] *)

(** C6: with [data.is_train] true and a loss name outside the four
    supported ones, [build_engine] raises at [return engine] without having
    constructed an engine, and the run aborts before [run] is called; with a
    supported name, [build_engine] constructs an engine and returns it. *)
Theorem unsupported_loss_aborts cfg :
  cfg.(data).(data_is_train) = true ->
  (supported_loss cfg.(loss).(loss_name) = false ->
   (forall dm m o s,
      build_engine cfg dm m o s = ([], inl (UnboundLocalError "engine"))) /\
   (forall w args, resolved w args = cfg ->
      (exists ex, outcome (main w args) = inl ex) /\
      engines_built (trace (main w args)) = [] /\
      run_calls (trace (main w args)) = [] /\
      (device_ok w cfg = true -> resume_ok w cfg ->
       outcome (main w args) = inl (UnboundLocalError "engine")))) /\
  (supported_loss cfg.(loss).(loss_name) = true ->
   forall dm m o s,
     exists e, build_engine cfg dm m o s = ([NewEngine e], inr e)).
Proof.
  intros Ht. split.
  - intros Hs. split.
    + intros. now apply build_engine_unbound.
    + intros w args <-.
      destruct (main_readings w args) as (_ & _ & _ & _ & _ & Ee & Er).
      rewrite main_outcome, Ee, Er. now apply run_aborts.
  - intros Hs dm m o s.
    destruct (build_engine_built_by cfg dm m o s) as [e | Hp].
    + now exists e.
    + unfold dispatch_ok in Hp. rewrite Hs, orb_true_r in Hp. discriminate.
Qed.

Lemma unsupported_loss_aborts_witness :
  (outcome (main (sample_world false focal_config) no_args)
   = inl (UnboundLocalError "engine") /\
   run_calls (trace (main (sample_world false focal_config) no_args)) = [])
  /\
  exists e,
    build_engine softmax_config sample_datamanager sample_model
      sample_optimizer sample_scheduler = ([NewEngine e], inr e).
Proof.
  split.
  - destruct (unsupported_loss_aborts focal_config eq_refl) as [H _].
    destruct (H eq_refl) as [_ Hm].
    destruct (Hm (sample_world false focal_config) no_args eq_refl)
      as (_ & _ & Hr & Ho).
    split; [apply Ho | exact Hr].
    + reflexivity.
    + left. left. reflexivity.
  - destruct (unsupported_loss_aborts softmax_config eq_refl) as [_ H].
    apply (H eq_refl).
Defined.

(** C7: the model is built once, with [num_classes] equal to the number of
    training identities of the data manager built just before; every engine
    receives that model together with that data manager. *)
Theorem model_num_classes_is_num_train_pids w args :
  let t := trace (main w args) in
  exists kwargs a,
    datamanagers_built t = [kwargs] /\
    models_built t = [a] /\
    a.(bm_num_classes) = w.(w_num_train_pids) kwargs /\
    forall e, In e (engines_built t) ->
      (engine_model e).(built_with).(bm_num_classes)
      = (engine_datamanager e).(num_train_pids) /\
      (engine_datamanager e).(num_train_pids) = w.(w_num_train_pids) kwargs.
Proof.
  intros t. subst t.
  destruct (main_readings w args) as (_ & _ & _ & Ed & Em & Ee & _).
  destruct (run_models w (resolved w args)) as (Hd & Hm & He).
  rewrite Ed, Em, Ee, Hd, Hm.
  do 2 eexists. repeat split; apply He; assumption.
Qed.

(** C2 fails as stated: on a machine without GPU, the option list
    [use_gpu True] overrides the probe result; [use_gpu=True] is passed to
    the model construction, the wrapping is attempted and the run fails. *)
Lemma forced_gpu_without_device :
  w_cuda_is_available (sample_world false softmax_config) = false /\
  probes (trace (main (sample_world false softmax_config) force_gpu_args))
  = [false] /\
  (exists a,
     models_built
       (trace (main (sample_world false softmax_config) force_gpu_args))
     = [a] /\ a.(bm_use_gpu) = true) /\
  In DataParallelCuda
    (trace (main (sample_world false softmax_config) force_gpu_args)) /\
  outcome (main (sample_world false softmax_config) force_gpu_args)
  = inl CudaError.
Proof.
  repeat split; try reflexivity.
  - eexists. split; reflexivity.
  - vm_compute. intuition.
Qed.

(** C2, amended: GPU availability is probed exactly once, first thing, and
    written to [cfg.use_gpu] before the configuration file and the option
    list are merged; unless this run's configuration file or its option
    list overrides it, [cfg.use_gpu] is the probe result.  The resolved
    [cfg.use_gpu] is used for the entire run: when it is false the model is
    neither wrapped nor moved to the GPU, [use_gpu=False] is passed to the
    model construction and to every engine constructor, no device error
    occurs, and the run goes through whenever the loss dispatch and the
    resume step do. *)
Theorem resolved_use_gpu_governs_run w args :
  let cfg := resolved w args in
  let t := trace (main w args) in
  probes t = [w.(w_cuda_is_available)] /\
  (exists t', t = CudaIsAvailable w.(w_cuda_is_available) :: t') /\
  ((args.(config_file) = "" \/
    forall c, (w.(w_merge_from_file) args.(config_file) c).(use_gpu)
              = c.(use_gpu)) ->
   (forall c, (w.(w_merge_from_list) args.(opts) c).(use_gpu)
              = c.(use_gpu)) ->
   cfg.(use_gpu) = w.(w_cuda_is_available)) /\
  (cfg.(use_gpu) = false ->
   ~ In DataParallelCuda t /\
   (forall a, In a (models_built t) -> a.(bm_use_gpu) = false) /\
   (forall e, In e (engines_built t) ->
      engine_use_gpu e = false /\
      (engine_model e).(data_parallel_cuda) = false) /\
   outcome (main w args) <> inl CudaError /\
   (dispatch_ok cfg = true -> resume_ok w cfg -> completes (main w args))).
Proof.
  intros cfg t. subst t.
  destruct (main_readings w args) as (Ep & _ & _ & _ & Em & Ee & _).
  split; [ now rewrite Ep, run_probes | ].
  split; [ rewrite main_trace; unfold resolve_events; eexists; reflexivity | ].
  split.
  - intros Hf Hl. unfold cfg, resolved.
    rewrite Hl. destruct (reset_config_frame
      (if str_truthy (config_file args)
       then w_merge_from_file w (config_file args)
              (set_use_gpu (w_get_default_config w) (w_cuda_is_available w))
       else set_use_gpu (w_get_default_config w) (w_cuda_is_available w))
      args) as (-> & _).
    destruct Hf as [Hf | Hf].
    + rewrite Hf. reflexivity.
    + destruct (str_truthy (config_file args)); [rewrite Hf | ]; reflexivity.
  - intros Hg.
    destruct (run_no_gpu w cfg Hg) as (Hn & Hm & He & Ho & _).
    rewrite Em, Ee, main_outcome.
    split; [ | split; [ | split; [ | split ]]]; try assumption.
    + intros Hin. apply in_main_trace in Hin as [Hin | Hin].
      * apply in_resolve_events in Hin. intuition discriminate.
      * now apply Hn.
    + intros Hp Hr. apply completes_main. apply run_completes; try assumption.
      unfold device_ok. fold cfg. now rewrite Hg.
Qed.

(** On the machine of the counterexample, a run whose option list is empty
    keeps the probe result, although the same merge overrides it for the
    option list [use_gpu True]. *)
Lemma resolved_use_gpu_governs_run_witness :
  probes (trace (main (sample_world false softmax_config) no_args))
  = [false] /\
  (resolved (sample_world false softmax_config) no_args).(use_gpu)
  = w_cuda_is_available (sample_world false softmax_config) /\
  (resolved (sample_world true test_config)
     {| config_file := "configs/test.yaml"; sources := None;
        targets := None; transforms := None; root := "";
        opts := [] |}).(use_gpu)
  = w_cuda_is_available (sample_world true test_config) /\
  ~ In DataParallelCuda
      (trace (main (sample_world false softmax_config) no_args)) /\
  completes (main (sample_world false softmax_config) no_args).
Proof.
  destruct (resolved_use_gpu_governs_run
              (sample_world false softmax_config) no_args)
    as (Hp & _ & Hk & H).
  destruct (resolved_use_gpu_governs_run
              (sample_world true test_config)
              {| config_file := "configs/test.yaml"; sources := None;
                 targets := None; transforms := None; root := "";
                 opts := [] |})
    as (_ & _ & Hk' & _).
  destruct (H eq_refl) as (Hn & _ & _ & _ & Hc).
  split; [exact Hp | split; [ | split; [ | split; [exact Hn | ]]]].
  - apply Hk; [left; reflexivity | intros c; reflexivity].
  - apply Hk'; [right; intros c; reflexivity | intros c; reflexivity].
  - apply Hc; [reflexivity | left; left; reflexivity].
Defined.



(** C4: loading pretrained weights replaces the model's weights and nothing
    else.  Whatever [cfg.model.load_weights] is, without a checkpoint to
    resume from the optimizer and the scheduler are the freshly built ones
    and [train.start_epoch] is as configured; only resuming restores the
    optimizer state and overwrites [train.start_epoch]. *)
Theorem load_weights_changes_weights_only w args :
  let cfg := resolved w args in
  let t := trace (main w args) in
  (forall m p, exists t0 m',
     load_pretrained_weights w m p = (t0, inr m') /\
     m'.(built_with) = m.(built_with) /\
     m'.(data_parallel_cuda) = m.(data_parallel_cuda)) /\
  (not_a_file w cfg.(model).(model_resume) ->
   forall e kw, In (e, kw) (run_calls t) ->
     kw.(run_start_epoch) = cfg.(train).(train_start_epoch) /\
     (forall o, engine_optimizer e = Some o ->
        o = {| optim_kwargs := w.(w_optimizer_kwargs) cfg;
               optim_state := [] |}) /\
     (forall s, engine_scheduler e = Some s ->
        s = {| sched_kwargs := w.(w_lr_scheduler_kwargs) cfg |}) /\
     (forall r, names_checkpoint w cfg.(model).(model_load_weights) r ->
        (engine_model e).(state_dict) = r.(ckpt_model_weights))) /\
  (forall r, names_checkpoint w cfg.(model).(model_resume) r ->
   forall e kw, In (e, kw) (run_calls t) ->
     kw.(run_start_epoch) = r.(ckpt_epoch) + 1 /\
     (forall o, engine_optimizer e = Some o ->
        o = {| optim_kwargs := w.(w_optimizer_kwargs) cfg;
               optim_state := r.(ckpt_optimizer_state) |}) /\
     (forall s, engine_scheduler e = Some s ->
        s = {| sched_kwargs := w.(w_lr_scheduler_kwargs) cfg |})).
Proof.
  intros cfg t. subst t.
  destruct (main_readings w args) as (_ & _ & _ & _ & _ & _ & Er).
  rewrite Er. split; [ | split].
  - intros m p. unfold load_pretrained_weights.
    destruct (w_files w p) as [[r | ] | ]; cbn;
      do 2 eexists; repeat split.
  - intros Hr e kw Hin.
    destruct (run_not_resumed w cfg Hr) as [_ Hk].
    destruct (Hk e kw Hin) as (-> & Ho & Hs & Hl & _).
    repeat split; assumption.
  - intros r Hr e kw Hin.
    destruct (run_resumed w cfg r Hr e kw Hin) as (Hs & _ & _ & Ho & Hsc).
    repeat split; assumption.
Qed.

(** Fine-tuning from the weights of a checkpoint: the weights are the
    checkpoint's, the optimizer has no state and the run starts at epoch
    0, although the file records optimizer state and epoch 9.  Resuming
    from the same file restores the optimizer state and starts at 10. *)
Lemma load_weights_changes_weights_only_witness :
  (exists e kw,
     run_calls (trace (main (sample_world false finetune_config) no_args))
     = [(e, kw)] /\
     kw.(run_start_epoch) = 0 /\
     (forall o, engine_optimizer e = Some o -> o = sample_optimizer) /\
     (engine_model e).(state_dict) = checkpoint10.(ckpt_model_weights)) /\
  (exists e kw,
     run_calls (trace (main (sample_world false resume_config) no_args))
     = [(e, kw)] /\
     kw.(run_start_epoch) = 10 /\
     (forall o, engine_optimizer e = Some o ->
        o.(optim_state) = checkpoint10.(ckpt_optimizer_state))).
Proof.
  split.
  - destruct (load_weights_changes_weights_only
                (sample_world false finetune_config) no_args) as (_ & H & _).
    do 2 eexists. split; [vm_compute; reflexivity | ].
    edestruct H as (Hs & Ho & _ & Hl).
    + left. reflexivity.
    + left. reflexivity.
    + split; [exact Hs | split; [exact Ho | ]].
      apply Hl. split; [discriminate | reflexivity].
  - destruct (load_weights_changes_weights_only
                (sample_world false resume_config) no_args) as (_ & _ & H).
    do 2 eexists. split; [vm_compute; reflexivity | ].
    edestruct (H checkpoint10) as (Hs & Ho & _).
    + split; [discriminate | reflexivity].
    + left. reflexivity.
    + split; [exact Hs | ].
      intros o Hsome. now rewrite (Ho o Hsome).
Defined.

(** What comes after the device step once a GPU is there if asked for. *)
Lemma run_builds_optimizer w cfg :
  device_ok w cfg = true ->
  (exists kw, In (BuildOptimizer kw) (trace (run_configured w cfg))) /\
  (exists kw, In (BuildLrScheduler kw) (trace (run_configured w cfg))).
Proof.
  intros Hd. exec.
  all: try absurd_case.
  all: split; eexists; find_in.
Qed.

(** C5 fails as stated: with both [model.load_weights] and [model.resume]
    unset, a training run with the loss name [focal] skips both loading
    steps and still ends in [UnboundLocalError], with no engine constructed
    and no call of [run]. *)
Lemma skipped_loading_aborts_on_unsupported_loss :
  focal_config.(model).(model_load_weights) = "" /\
  focal_config.(model).(model_resume) = "" /\
  resolved (sample_world false focal_config) no_args = focal_config /\
  outcome (main (sample_world false focal_config) no_args)
  = inl (UnboundLocalError "engine") /\
  engines_built (trace (main (sample_world false focal_config) no_args))
  = [] /\
  run_calls (trace (main (sample_world false focal_config) no_args)) = [].
Proof. repeat split. Qed.

(** C5, amended: when [cfg.model.load_weights] (respectively
    [cfg.model.resume]) is unset or names no file, no weights are loaded
    (respectively no checkpoint is restored), in every run, and the model
    is still built.  The optimizer and the scheduler are still built when a
    GPU is present if one is asked for; one engine is constructed and [run]
    is called when, further, the loss name is dispatched and, for the
    [load_weights] half, the resume step is skipped or finds a checkpoint.
    A run that skips resuming calls [run] with the configuration's own
    arguments and, with both steps skipped, on the initial weights. *)
Theorem skipped_loading_continues w args :
  let cfg := resolved w args in
  let t := trace (main w args) in
  (not_a_file w cfg.(model).(model_load_weights) ->
   (forall p, ~ In (LoadPretrainedWeights p) t) /\
   (exists a, models_built t = [a]) /\
   (device_ok w cfg = true ->
    (exists kw, In (BuildOptimizer kw) t) /\
    (exists kw, In (BuildLrScheduler kw) t)) /\
   (device_ok w cfg = true -> dispatch_ok cfg = true -> resume_ok w cfg ->
    completes (main w args))) /\
  (not_a_file w cfg.(model).(model_resume) ->
   (forall p, ~ In (ResumeFromCheckpoint p) t) /\
   (exists a, models_built t = [a]) /\
   (device_ok w cfg = true ->
    (exists kw, In (BuildOptimizer kw) t) /\
    (exists kw, In (BuildLrScheduler kw) t)) /\
   (device_ok w cfg = true -> dispatch_ok cfg = true ->
    completes (main w args)) /\
   forall e kw, In (e, kw) (run_calls t) ->
     kw = engine_run_kwargs cfg /\
     (not_a_file w cfg.(model).(model_load_weights) ->
      (engine_model e).(state_dict)
      = w.(w_initial_state_dict) (engine_model e).(built_with))).
Proof.
  intros cfg t. subst t.
  destruct (main_readings w args) as (_ & _ & _ & _ & Em & _ & Er).
  destruct (run_models w cfg) as (_ & Hm & _).
  assert (Hb : device_ok w cfg = true ->
               (exists kw, In (BuildOptimizer kw) (trace (main w args))) /\
               (exists kw, In (BuildLrScheduler kw) (trace (main w args)))).
  { intros Hd. destruct (run_builds_optimizer w cfg Hd) as [[ko Ho] [ks Hs]].
    split; [exists ko | exists ks]; apply in_main_trace; now right. }
  rewrite Er, Em. fold cfg. rewrite Hm. split.
  - intros Hl. split; [ | split; [eexists; reflexivity | split; [exact Hb | ]]].
    + intros p Hin. apply in_main_trace in Hin as [Hin | Hin].
      * apply in_resolve_events in Hin. intuition discriminate.
      * now apply (run_not_loaded w cfg Hl p).
    + intros Hd Hp Hr. apply completes_main. now apply run_completes.
  - intros Hr. destruct (run_not_resumed w cfg Hr) as [Hn Hk].
    split; [ | split; [eexists; reflexivity | split; [exact Hb | split]]].
    + intros p Hin. apply in_main_trace in Hin as [Hin | Hin].
      * apply in_resolve_events in Hin. intuition discriminate.
      * now apply (Hn p).
    + intros Hd Hp. apply completes_main.
      apply run_completes; try assumption. now left.
    + intros e kw Hin. destruct (Hk e kw Hin) as (Hkw & _ & _ & _ & Hi).
      split; assumption.
Qed.

Lemma skipped_loading_continues_witness :
  (forall p,
     ~ In (LoadPretrainedWeights p)
         (trace (main (sample_world false missing_files_config) no_args))) /\
  (forall p,
     ~ In (ResumeFromCheckpoint p)
         (trace (main (sample_world false missing_files_config) no_args))) /\
  completes (main (sample_world false missing_files_config) no_args) /\
  (forall p,
     ~ In (LoadPretrainedWeights p)
         (trace (main (sample_world false focal_config) no_args))) /\
  (exists kw,
     In (BuildOptimizer kw)
        (trace (main (sample_world false focal_config) no_args))).
Proof.
  destruct (skipped_loading_continues
              (sample_world false missing_files_config) no_args) as [Hl Hr].
  destruct (skipped_loading_continues
              (sample_world false focal_config) no_args) as [Hf _].
  destruct Hl as (Hl & _); [right; reflexivity | ].
  destruct Hr as (Hr & _ & _ & Hc & _); [right; reflexivity | ].
  destruct Hf as (Hf & _ & Ho & _); [left; reflexivity | ].
  split; [exact Hl | split; [exact Hr | split; [ | split; [exact Hf | ]]]].
  - apply Hc; reflexivity.
  - apply Ho. reflexivity.
Defined.

(** C10 fails as stated: [main] seeds the process and replaces the
    process's standard output before anything is built, and no engine
    constructor receives a seed or a log sink; the runs with seed 1 and
    with seed 2 construct the same engine. *)
Lemma seed_and_log_set_globally :
  In (SetRandomSeed 1)
     (trace (main (sample_world false softmax_config) no_args)) /\
  In (SetStdout "log/train.log-2019-11-20-10-00-00")
     (trace (main (sample_world false softmax_config) no_args)) /\
  softmax_config.(train).(train_seed) <> seed2_config.(train).(train_seed) /\
  engines_built (trace (main (sample_world false softmax_config) no_args))
  = engines_built (trace (main (sample_world false seed2_config) no_args)).
Proof.
  split; [vm_compute; tauto | ].
  split; [vm_compute; tauto | ].
  split; [discriminate | reflexivity].
Qed.

(** C10, amended: the seed and the log sink are installed process-wide,
    once each, by [set_random_seed(cfg.train.seed)] and
    [sys.stdout = Logger(...)], before the data manager, the model and the
    engine are built; the engine [build_engine] constructs depends on the
    configuration through [use_gpu], [data.is_train] and the [loss] section
    only, so neither the seed nor the log file reaches it. *)
Theorem seed_and_log_are_process_wide w args :
  let cfg := resolved w args in
  let t := trace (main w args) in
  seeds_set t = [cfg.(train).(train_seed)] /\
  stdouts_set t
  = [osp_join cfg.(data).(data_save_dir) (log_name w cfg)] /\
  (exists pre rest,
     t = (pre
          ++ SetRandomSeed cfg.(train).(train_seed)
          :: SetStdout (osp_join cfg.(data).(data_save_dir) (log_name w cfg))
          :: rest)%list /\
     datamanagers_built pre = [] /\ models_built pre = [] /\
     engines_built pre = []) /\
  (forall cfg1 cfg2 dm m o s,
     cfg1.(use_gpu) = cfg2.(use_gpu) ->
     cfg1.(data).(data_is_train) = cfg2.(data).(data_is_train) ->
     cfg1.(loss) = cfg2.(loss) ->
     build_engine cfg1 dm m o s = build_engine cfg2 dm m o s).
Proof.
  intros cfg t. subst t.
  destruct (main_readings w args) as (_ & Es & Eo & _).
  destruct (run_seed_and_log w cfg) as (rest & Et & Hs & Ho).
  fold cfg in Es, Eo.
  rewrite Es, Eo, main_trace. fold cfg. rewrite Et.
  unfold seeds_set, stdouts_set in *. cbn. rewrite Hs, Ho.
  split; [reflexivity | split; [reflexivity | split]].
  - exists (resolve_events w args), rest. split; [reflexivity | ].
    destruct (resolve_events_readings w args) as (_ & _ & _ & Ed & Em & Ee & _).
    now rewrite Ed, Em, Ee.
  - intros cfg1 cfg2 dm m o s Hg Ht Hl. unfold build_engine.
    now rewrite Hg, Ht, Hl.
Qed.

(** * Further properties of [main.py] *)

(** ** [reset_config] *)

(** X1: [reset_config] writes [data.root], [data.sources], [data.targets]
    and [data.transforms] only; every other option of the configuration is
    left as it was. *)
Theorem reset_config_writes_four_data_options cfg args :
  let cfg' := reset_config cfg args in
  cfg'.(use_gpu) = cfg.(use_gpu) /\
  cfg'.(loss) = cfg.(loss) /\
  cfg'.(model) = cfg.(model) /\
  cfg'.(train) = cfg.(train) /\
  cfg'.(test) = cfg.(test) /\
  cfg'.(data).(data_is_train) = cfg.(data).(data_is_train) /\
  cfg'.(data).(data_type) = cfg.(data).(data_type) /\
  cfg'.(data).(data_save_dir) = cfg.(data).(data_save_dir).
Proof.
  unfold reset_config.
  destruct (str_truthy (root args)), (list_truthy (sources args)),
    (list_truthy (targets args)), (list_truthy (transforms args));
    cbn; repeat split.
Qed.

(** X2: a command line that gives none of the four options (an empty
    [--root], and absent or empty lists) leaves the configuration
    unchanged. *)
Theorem reset_config_without_options cfg args :
  args.(root) = "" ->
  (args.(sources) = None \/ args.(sources) = Some []) ->
  (args.(targets) = None \/ args.(targets) = Some []) ->
  (args.(transforms) = None \/ args.(transforms) = Some []) ->
  reset_config cfg args = cfg.
Proof.
  intros Hr Hs Ht Hf. unfold reset_config. rewrite Hr.
  destruct Hs as [-> | ->], Ht as [-> | ->], Hf as [-> | ->]; reflexivity.
Qed.

Lemma reset_config_without_options_witness :
  reset_config triplet_config no_args = triplet_config.
Proof.
  apply reset_config_without_options;
    [reflexivity | left; reflexivity | left; reflexivity | left; reflexivity].
Defined.

(** X3: the four options are overridden independently: each one takes the
    command line's value exactly when that value is given, whatever the
    other three are. *)
Theorem reset_config_options_are_independent cfg args :
  let d := (reset_config cfg args).(data) in
  d.(data_root)
  = (if str_truthy args.(root) then args.(root)
     else cfg.(data).(data_root)) /\
  d.(data_sources)
  = (match args.(sources) with
     | Some (x :: l) => x :: l
     | _ => cfg.(data).(data_sources)
     end) /\
  d.(data_targets)
  = (match args.(targets) with
     | Some (x :: l) => x :: l
     | _ => cfg.(data).(data_targets)
     end) /\
  d.(data_transforms)
  = (match args.(transforms) with
     | Some (x :: l) => x :: l
     | _ => cfg.(data).(data_transforms)
     end).
Proof.
  unfold reset_config.
  destruct (str_truthy (root args)),
    (sources args) as [[ | ? ?] | ], (targets args) as [[ | ? ?] | ],
    (transforms args) as [[ | ? ?] | ]; cbn; repeat split.
Qed.

(** X4: applying two command lines in a row is applying their combination,
    in which a given option of the later one replaces that of the earlier
    one; in particular applying the same command line twice changes nothing
    more. *)
Theorem reset_config_composes cfg a1 a2 :
  reset_config (reset_config cfg a1) a2 = reset_config cfg (later_args a1 a2)
  /\ reset_config (reset_config cfg a1) a1 = reset_config cfg a1.
Proof.
  unfold reset_config, later_args. cbn.
  destruct (str_truthy (root a1)) eqn:R1, (str_truthy (root a2)) eqn:R2,
    (list_truthy (sources a1)) eqn:S1, (list_truthy (sources a2)) eqn:S2,
    (list_truthy (targets a1)) eqn:T1, (list_truthy (targets a2)) eqn:T2,
    (list_truthy (transforms a1)) eqn:F1,
    (list_truthy (transforms a2)) eqn:F2;
    cbn; rewrite ?R1, ?R2, ?S1, ?S2, ?T1, ?T2, ?F1, ?F2;
    split; reflexivity.
Qed.

(** ** Strings and traces *)

Lemma append_cons (a : ascii) (s b : string) :
  String a s ++ b = String a (s ++ b).
Proof. reflexivity. Qed.

Lemma prefix_append (a b : string) : String.prefix a (a ++ b) = true.
Proof.
  induction a as [ | c a IH].
  - change ("" ++ b) with b. destruct b; reflexivity.
  - rewrite append_cons. simpl.
    destruct (ascii_dec c c) as [_ | N]; [exact IH | now elim N].
Qed.

Lemma append_assoc (a b c : string) : (a ++ b) ++ c = a ++ b ++ c.
Proof.
  induction a as [ | x a IH]; [reflexivity | ].
  rewrite !append_cons. now rewrite IH.
Qed.

(** The name of the log file never starts with a separator, so joining it
    to a directory keeps the directory. *)
Lemma log_name_relative w cfg : starts_with_sep (log_name w cfg) = false.
Proof.
  unfold log_name. destruct (test_evaluate (test cfg)); reflexivity.
Qed.

Lemma osp_join_relative (a b : string) :
  starts_with_sep b = false ->
  exists sep, (sep = "" \/ sep = "/") /\ osp_join a b = a ++ sep ++ b.
Proof.
  intros Hb. unfold osp_join. rewrite Hb.
  destruct (negb (str_truthy a) || ends_with_sep a).
  - exists "". split; [now left | reflexivity].
  - exists "/". split; [now right | reflexivity].
Qed.

(** [ends_with_sep] holds of the strings that end with the separator. *)
Lemma ends_with_sep_spec (s : string) :
  ends_with_sep s = true <-> exists d, s = d ++ "/".
Proof.
  induction s as [ | c s IH].
  - split; [discriminate | ].
    intros [[ | x d] E]; discriminate E.
  - destruct s as [ | c' s'].
    + cbn. split.
      * intros E. apply Ascii.eqb_eq in E. subst c. now exists "".
      * intros [[ | x d] E].
        -- injection E as ->. reflexivity.
        -- rewrite append_cons in E. injection E as _ E.
           destruct d; discriminate E.
    + change (ends_with_sep (String c (String c' s')))
        with (ends_with_sep (String c' s')).
      rewrite IH. split.
      * intros [d E]. exists (String c d). now rewrite append_cons, <- E.
      * intros [[ | x d] E]; [discriminate E | ].
        rewrite append_cons in E. injection E as _ E. now exists d.
Qed.

Lemma osp_join_cases (a b : string) :
  starts_with_sep b = false ->
  (a = "" -> osp_join a b = b) /\
  ((exists d, a = d ++ "/") -> osp_join a b = a ++ b) /\
  (a <> "" -> (forall d, a <> d ++ "/") -> osp_join a b = a ++ "/" ++ b).
Proof.
  intros Hb. unfold osp_join. rewrite Hb. repeat split.
  - intros ->. reflexivity.
  - intros Hd. apply ends_with_sep_spec in Hd. rewrite Hd.
    now rewrite orb_true_r.
  - intros Ha Hn. apply str_truthy_true in Ha. rewrite Ha.
    destruct (ends_with_sep a) eqn:E; [ | reflexivity].
    apply ends_with_sep_spec in E as [d E]. now elim (Hn d).
Qed.

Lemma preceded_by_sound (a b : Event -> bool) (t pre post : list Event)
    (ev : Event) :
  preceded_by a b t = true ->
  t = (pre ++ ev :: post)%list -> b ev = true -> existsb a pre = true.
Proof.
  revert t. induction pre as [ | x pre IH]; intros t Ht -> Hb.
  - cbn in Ht. rewrite Hb in Ht. discriminate.
  - cbn in Ht. apply andb_prop in Ht as [_ Ht]. cbn.
    destruct (a x); [reflexivity | ].
    now apply (IH _ Ht eq_refl).
Qed.

Lemma never_after_sound (a b : Event -> bool) (t pre post : list Event)
    (ev : Event) :
  never_after a b t = true ->
  t = (pre ++ ev :: post)%list -> b ev = true -> existsb a pre = false.
Proof.
  revert t. induction pre as [ | x pre IH]; intros t Ht -> Hb.
  - reflexivity.
  - cbn in Ht. apply andb_prop in Ht as [Hx Ht]. cbn.
    rewrite (IH _ Ht eq_refl Hb), orb_false_r.
    destruct (a x); [ | reflexivity].
    rewrite existsb_app in Hx. cbn in Hx. rewrite Hb in Hx.
    rewrite orb_true_r in Hx. discriminate.
Qed.

Lemma preceded_by_app (a b : Event -> bool) (pre t : list Event) :
  existsb b pre = false -> preceded_by a b t = true ->
  preceded_by a b (pre ++ t) = true.
Proof.
  induction pre as [ | x pre IH]; intros Hb Ht; [exact Ht | ].
  cbn in *. apply orb_false_elim in Hb as [Hx Hb]. rewrite Hx. cbn.
  destruct (a x); [reflexivity | now apply IH].
Qed.

Lemma never_after_app (a b : Event -> bool) (pre t : list Event) :
  existsb a pre = false -> never_after a b t = true ->
  never_after a b (pre ++ t) = true.
Proof.
  induction pre as [ | x pre IH]; intros Ha Ht; [exact Ht | ].
  cbn in *. apply orb_false_elim in Ha as [Hx Ha]. rewrite Hx. cbn.
  now apply IH.
Qed.

Lemma resolve_events_quiet w args :
  prints (resolve_events w args) = [] /\
  isfile_checks (resolve_events w args) = [] /\
  loads (resolve_events w args) = [] /\
  resumes (resolve_events w args) = [] /\
  (forall f, In f [is_build_model; is_load; is_wrap; is_build_optimizer;
                   is_build_lr_scheduler; is_resume; is_new_engine] ->
     existsb f (resolve_events w args) = false).
Proof.
  unfold resolve_events.
  destruct (str_truthy (config_file args)); cbn; repeat split;
    intros f Hf; repeat (destruct Hf as [<- | Hf]; [reflexivity | ]);
    destruct Hf.
Qed.

(** ** What [build_engine] hands to the constructor *)

Lemma build_engine_cases cfg dm m o s :
  (exists e,
     build_engine cfg dm m o s = ([NewEngine e], inr e) /\
     engine_datamanager e = dm /\ engine_model e = m /\
     engine_use_gpu e = cfg.(use_gpu) /\
     (if cfg.(data).(data_is_train)
      then engine_optimizer e = Some o /\ engine_scheduler e = Some s /\
           spec_variant cfg.(loss).(loss_name) = Some (engine_kind e)
      else engine_optimizer e = None /\ engine_scheduler e = None /\
           engine_kind e = KInference))
  \/ (build_engine cfg dm m o s = ([], inl (UnboundLocalError "engine")) /\
      cfg.(data).(data_is_train) = true /\
      supported_loss cfg.(loss).(loss_name) = false).
Proof.
  unfold build_engine, spec_variant.
  destruct (data_is_train (data cfg)) eqn:Ht.
  - destruct (supported_loss (loss_name (loss cfg))) eqn:Hs.
    + left. apply supported_loss_cases in Hs.
      destruct Hs as [Hn | [Hn | [Hn | Hn]]]; rewrite Hn; cbn;
        eexists; repeat split.
    + right. destruct (unsupported_loss_tests _ Hs) as (E1 & E2 & E3 & E4).
      rewrite E1, E2, E3, E4. repeat split.
  - left. cbn. eexists. repeat split.
Qed.

(** X5: whatever [build_engine] returns was constructed from the very data
    manager and model it was given and from [cfg.use_gpu]; a training
    engine also holds the optimizer and the scheduler it was given, the
    inference engine holds neither. *)
Theorem build_engine_passes_its_arguments cfg dm m o s e :
  outcome (build_engine cfg dm m o s) = inr e ->
  engine_datamanager e = dm /\ engine_model e = m /\
  engine_use_gpu e = cfg.(use_gpu) /\
  (cfg.(data).(data_is_train) = true ->
   engine_optimizer e = Some o /\ engine_scheduler e = Some s) /\
  (cfg.(data).(data_is_train) = false ->
   engine_optimizer e = None /\ engine_scheduler e = None).
Proof.
  intros He.
  destruct (build_engine_cases cfg dm m o s)
    as [(e' & E & Hd & Hm & Hg & Hk) | (E & _)];
    rewrite E in He; cbn in He; [ | discriminate].
  injection He as <-.
  split; [exact Hd | split; [exact Hm | split; [exact Hg | split]]];
    intros Ht; rewrite Ht in Hk; tauto.
Qed.

Lemma build_engine_passes_its_arguments_witness :
  engine_datamanager
    (InfenerceEngine sample_datamanager sample_model false)
  = sample_datamanager /\
  engine_optimizer (InfenerceEngine sample_datamanager sample_model false)
  = None.
Proof.
  destruct (build_engine_passes_its_arguments test_config sample_datamanager
              sample_model sample_optimizer sample_scheduler _ eq_refl)
    as (Hd & _ & _ & _ & Hn).
  split; [exact Hd | apply Hn; reflexivity].
Defined.

(** ** More of the configured run *)

Ltac exec_step_kind :=
  match goal with
  | |- context [if ?b then _ else _] =>
      lazymatch b with
      | context [if _ then _ else _] => fail
      | context [match _ with _ => _ end] => fail
      | _ => split_on b
      end
  | |- context [match w_files ?w ?p with _ => _ end] =>
      first [ match goal with H : w_files w p = _ |- _ => rewrite H end
            | destruct (w_files w p) as [[?|]|] eqn:? ]
  | |- context [build_engine ?c ?d ?m ?o ?s] =>
      let E := fresh "E" in
      destruct (build_engine_cases c d m o s)
        as [(? & E & ? & ? & ? & ?) | (E & ? & ?)];
      rewrite E; clear E
  end.

Ltac exec_kind :=
  unfold run_configured, check_isfile, load_pretrained_weights,
    resume_from_checkpoint, DataParallel_cuda, build_datamanager,
    trace, outcome;
  repeat (cbn; exec_step_kind); cbn.

Section ConfiguredRunCalls.

Variable w : World.
Variable cfg : Config.

Lemma run_merges_nothing :
  file_merges (trace (run_configured w cfg)) = [] /\
  list_merges (trace (run_configured w cfg)) = [].
Proof. exec; split; reflexivity. Qed.

Lemma run_file_guards :
  (forall p r, In (p, r) (isfile_checks (trace (run_configured w cfg))) ->
     p <> "" /\ r = is_file w p /\
     (p = cfg.(model).(model_load_weights) \/
      p = cfg.(model).(model_resume))) /\
  (forall p, In p (loads (trace (run_configured w cfg))) ->
     p = cfg.(model).(model_load_weights) /\
     In (p, true) (isfile_checks (trace (run_configured w cfg)))) /\
  (forall p, In p (resumes (trace (run_configured w cfg))) ->
     p = cfg.(model).(model_resume) /\
     In (p, true) (isfile_checks (trace (run_configured w cfg)))) /\
  (length (isfile_checks (trace (run_configured w cfg))) <= 2)%nat.
Proof.
  exec.
  all: split; [ intros p b Hin
              | split; [ intros p Hin | split; [ intros p Hin | lia]]].
  all: repeat (destruct Hin as [Hin | Hin];
               [ try (injection Hin as <- <-); try subst p | ]);
       try destruct Hin.
  all: repeat split;
       try (apply str_truthy_true; assumption);
       try (symmetry; assumption);
       auto.
Qed.

Lemma run_wraps_iff_use_gpu :
  (In DataParallelCuda (trace (run_configured w cfg)) <->
   cfg.(use_gpu) = true) /\
  (length (filter is_wrap (trace (run_configured w cfg))) <= 1)%nat.
Proof.
  destruct (use_gpu cfg) eqn:Hg.
  all: exec.
  all: split; [ | lia].
  all: split; intros Hw; try discriminate Hw; try reflexivity.
  all: try (find_in; fail).
  all: cbn in Hw; intuition discriminate.
Qed.

Lemma run_order :
  let t := trace (run_configured w cfg) in
  preceded_by is_build_model is_load t = true /\
  never_after is_wrap is_load t = true /\
  never_after is_build_optimizer is_load t = true /\
  never_after is_build_optimizer is_wrap t = true /\
  preceded_by is_build_optimizer is_resume t = true /\
  preceded_by is_build_lr_scheduler is_resume t = true /\
  never_after is_new_engine is_resume t = true.
Proof. exec; repeat split. Qed.


Lemma run_load_after_check (a : Event -> bool) :
  a (CheckIsfile cfg.(model).(model_load_weights) true) = true ->
  preceded_by a is_load (trace (run_configured w cfg)) = true.
Proof.
  intros Ha. exec; reflexivity.
Qed.

Lemma run_resume_after_check (a : Event -> bool) :
  a (CheckIsfile cfg.(model).(model_resume) true) = true ->
  preceded_by a is_resume (trace (run_configured w cfg)) = true.
Proof.
  intros Ha. exec; reflexivity.
Qed.

End ConfiguredRunCalls.

Section ConfiguredRunEngine.

Variable w : World.
Variable cfg : Config.

Lemma run_engine_last :
  (length (engines_built (trace (run_configured w cfg))) <= 1)%nat /\
  (length (run_calls (trace (run_configured w cfg))) <= 1)%nat /\
  (forall e kw, In (e, kw) (run_calls (trace (run_configured w cfg))) ->
     engines_built (trace (run_configured w cfg)) = [e] /\
     exists pre,
       trace (run_configured w cfg) = (pre ++ [EngineRun e kw])%list /\
       run_calls pre = []).
Proof.
  exec.
  all: split; [lia | split; [lia | ]].
  all: intros e' kw' Hin; the_engine.
  all: injection Hin as <- <-.
  all: split; [reflexivity | ].
  all: match goal with
       | |- exists pre, ?l = _ /\ _ => exists (removelast l)
       end; split; reflexivity.
Qed.

Lemma run_engine_consistent :
  forall e, In e (engines_built (trace (run_configured w cfg))) ->
    engine_use_gpu e = cfg.(use_gpu) /\
    (engine_model e).(built_with).(bm_use_gpu) = cfg.(use_gpu) /\
    (engine_model e).(data_parallel_cuda) = cfg.(use_gpu) /\
    (engine_model e).(built_with).(bm_loss) = cfg.(loss).(loss_name) /\
    (engine_model e).(built_with).(bm_name) = cfg.(model).(model_name) /\
    (cfg.(data).(data_is_train) = true ->
     spec_variant cfg.(loss).(loss_name) = Some (engine_kind e)) /\
    (cfg.(data).(data_is_train) = false -> engine_kind e = KInference).
Proof.
  destruct (use_gpu cfg) eqn:Hg, (data_is_train (data cfg)) eqn:Ht.
  all: exec_kind.
  all: intros e' Hin; the_engine; subst e'.
  all: repeat match goal with
         | H : engine_model ?e = _ |- _ => rewrite H; clear H
         | H : engine_use_gpu ?e = _ |- _ => rewrite H; clear H
         end.
  all: cbn in *; rewrite ?Hg, ?Ht in *.
  all: repeat split; try tauto; try discriminate.
Qed.

Lemma run_unbound_only (name : string) :
  outcome (run_configured w cfg) = inl (UnboundLocalError name) ->
  name = "engine" /\
  cfg.(data).(data_is_train) = true /\
  supported_loss cfg.(loss).(loss_name) = false.
Proof.
  exec_kind.
  all: intros Ho; try discriminate Ho.
  all: injection Ho as <-.
  all: cbn in *; repeat split; assumption.
Qed.

End ConfiguredRunEngine.

(** ** From the configured run to [main], continued *)

Lemma main_more_readings w args :
  let t := trace (run_configured w (resolved w args)) in
  file_merges (trace (main w args))
  = (if str_truthy args.(config_file) then [args.(config_file)] else []) /\
  list_merges (trace (main w args)) = [args.(opts)] /\
  prints (trace (main w args)) = prints t /\
  isfile_checks (trace (main w args)) = isfile_checks t /\
  loads (trace (main w args)) = loads t /\
  resumes (trace (main w args)) = resumes t.
Proof.
  intros t. rewrite main_trace. fold t.
  destruct (run_merges_nothing w (resolved w args)) as [Ef El].
  fold t in Ef, El.
  destruct (resolve_events_quiet w args) as (Ep & Ec & Eo & Er & _).
  unfold file_merges, list_merges, prints, isfile_checks, loads, resumes
    in *.
  rewrite !flat_map_app, Ef, El, Ep, Ec, Eo, Er. unfold resolve_events.
  destruct (str_truthy (config_file args)); cbn; repeat split.
Qed.

Lemma reset_config_root cfg args :
  args.(root) <> "" ->
  (reset_config cfg args).(data).(data_root) = args.(root).
Proof.
  intros Hr. apply str_truthy_true in Hr. unfold reset_config. rewrite Hr.
  destruct (list_truthy (sources args)), (list_truthy (targets args)),
    (list_truthy (transforms args)); reflexivity.
Qed.

(** ** Resolving the configuration *)

(** X6: a [--root] given on the command line ends up in the configuration
    the run uses, whatever the configuration file says, as long as the
    option list does not set [data] options itself; the data manager is
    built from that configuration. *)
Theorem command_line_root_reaches_data_manager w args :
  args.(root) <> "" ->
  (forall c, (w.(w_merge_from_list) args.(opts) c).(data) = c.(data)) ->
  exists cfg,
    outcome (resolve_config w args) = inr cfg /\
    cfg.(data).(data_root) = args.(root) /\
    datamanagers_built (trace (main w args)) = [w.(w_imagedata_kwargs) cfg].
Proof.
  intros Hr Hl. exists (resolved w args).
  rewrite resolve_config_eq. split; [reflexivity | split].
  - unfold resolved. rewrite Hl. now apply reset_config_root.
  - destruct (main_readings w args) as (_ & _ & _ & Ed & _).
    rewrite Ed. apply run_models.
Qed.

Lemma command_line_root_reaches_data_manager_witness :
  exists cfg,
    outcome (resolve_config (sample_world false softmax_config) data_args)
    = inr cfg /\
    cfg.(data).(data_root) = "/data" /\
    datamanagers_built
      (trace (main (sample_world false softmax_config) data_args))
    = [w_imagedata_kwargs (sample_world false softmax_config) cfg].
Proof.
  apply (command_line_root_reaches_data_manager
           (sample_world false softmax_config) data_args).
  - discriminate.
  - intros c. reflexivity.
Defined.

(** X7: the configuration file is merged exactly when [--config_file] is
    non-empty, and then once, before the option list; the option list is
    merged exactly once in every run, even when it is empty.  Nothing else
    in the run merges into the configuration. *)
Theorem merges_follow_the_command_line w args :
  file_merges (trace (main w args))
  = (if str_truthy args.(config_file) then [args.(config_file)] else []) /\
  list_merges (trace (main w args)) = [args.(opts)] /\
  (args.(config_file) <> "" ->
   exists post,
     trace (main w args)
     = CudaIsAvailable w.(w_cuda_is_available)
       :: MergeFromFile args.(config_file)
       :: MergeFromList args.(opts) :: post) /\
  (args.(config_file) = "" ->
   exists post,
     trace (main w args)
     = CudaIsAvailable w.(w_cuda_is_available)
       :: MergeFromList args.(opts) :: post).
Proof.
  destruct (main_more_readings w args) as (Ef & El & _).
  split; [exact Ef | split; [exact El | ]].
  rewrite main_trace. unfold resolve_events. split; intros Hc.
  - apply str_truthy_true in Hc. rewrite Hc. eexists. reflexivity.
  - rewrite Hc. eexists. reflexivity.
Qed.

(** ** The log file and the messages *)

(** X8: the log file is created inside [data.save_dir].  Its name is
    [test.log] or [train.log] (by [test.evaluate]) followed by the time
    stamp; its path is that name alone when [save_dir] is empty, [save_dir]
    followed by the name when [save_dir] ends with the separator, and
    [save_dir], a separator and the name otherwise.  The name never starts
    with the separator, so joining never drops [save_dir]. *)
Theorem log_file_is_inside_save_dir w args :
  let cfg := resolved w args in
  let dir := cfg.(data).(data_save_dir) in
  let name :=
    (if cfg.(test).(test_evaluate) then "test.log" else "train.log")
    ++ w.(w_strftime) in
  exists p,
    stdouts_set (trace (main w args)) = [p] /\
    (dir = "" -> p = name) /\
    ((exists d, dir = d ++ "/") -> p = dir ++ name) /\
    (dir <> "" -> (forall d, dir <> d ++ "/") -> p = dir ++ "/" ++ name) /\
    String.prefix dir p = true.
Proof.
  intros cfg dir name.
  destruct (main_readings w args) as (_ & _ & Eo & _).
  destruct (run_seed_and_log w cfg) as (rest & Et & _ & Ho).
  destruct (osp_join_cases dir (log_name w cfg) (log_name_relative w cfg))
    as (J1 & J2 & J3).
  destruct (osp_join_relative dir (log_name w cfg)
              (log_name_relative w cfg)) as (sep & _ & Ej).
  exists (osp_join dir (log_name w cfg)).
  split; [ | split; [exact J1 | split; [exact J2 | split; [exact J3 | ]]]].
  - rewrite Eo. fold cfg. rewrite Et. unfold stdouts_set in *. cbn.
    now rewrite Ho.
  - rewrite Ej. apply prefix_append.
Qed.

Lemma log_file_is_inside_save_dir_witness :
  stdouts_set (trace (main (sample_world false softmax_config) no_args))
  = ["log/train.log-2019-11-20-10-00-00"].
Proof.
  destruct (log_file_is_inside_save_dir
              (sample_world false softmax_config) no_args)
    as (p & Hs & _ & _ & Hp & _).
  rewrite Hs. f_equal. apply Hp.
  - discriminate.
  - intros d E. apply (f_equal ends_with_sep) in E.
    assert (F : ends_with_sep (d ++ "/") = true)
      by (apply ends_with_sep_spec; now exists d).
    rewrite F in E. discriminate E.
Defined.

(** X9: standard output is replaced by the logger before the first message
    is printed and is not replaced again, so every message of the run goes
    to the log file. *)
Theorem messages_are_printed_after_the_logger_is_set w args :
  exists pre p post,
    trace (main w args) = (pre ++ SetStdout p :: post)%list /\
    prints pre = [] /\ stdouts_set pre = [] /\ stdouts_set post = [].
Proof.
  destruct (run_seed_and_log w (resolved w args)) as (rest & Et & _ & Ho).
  exists (resolve_events w args
          ++ [SetRandomSeed (resolved w args).(train).(train_seed)])%list.
  do 2 eexists. split; [ | split; [ | split; [ | exact Ho]]].
  - rewrite main_trace, Et, <- app_assoc. reflexivity.
  - destruct (resolve_events_quiet w args) as (Ep & _).
    unfold prints in *. now rewrite flat_map_app, Ep.
  - destruct (resolve_events_readings w args) as (_ & _ & Es & _).
    unfold stdouts_set in *. now rewrite flat_map_app, Es.
Qed.


(** ** Files, device and engine *)

(** X11: [check_isfile] is called at most twice, never on an empty path,
    and only on [model.load_weights] and [model.resume]; weights are loaded
    and a checkpoint is restored only from the path of the respective option
    and only after [check_isfile] returned true for that path: at the
    moment of either call, the successful check is already in the trace. *)
Theorem files_are_checked_before_use w args :
  let cfg := resolved w args in
  let t := trace (main w args) in
  (length (isfile_checks t) <= 2)%nat /\
  (forall p r, In (p, r) (isfile_checks t) ->
     p <> "" /\ r = is_file w p /\
     (p = cfg.(model).(model_load_weights) \/
      p = cfg.(model).(model_resume))) /\
  (forall p, In p (loads t) ->
     p = cfg.(model).(model_load_weights) /\ In (p, true) (isfile_checks t))
  /\
  (forall p, In p (resumes t) ->
     p = cfg.(model).(model_resume) /\ In (p, true) (isfile_checks t)) /\
  (forall pre ev post p,
     t = (pre ++ ev :: post)%list ->
     ev = LoadPretrainedWeights p \/ ev = ResumeFromCheckpoint p ->
     In (CheckIsfile p true) pre).
Proof.
  intros cfg t. subst t.
  destruct (main_more_readings w args) as (_ & _ & _ & Ec & Eo & Er).
  destruct (run_file_guards w cfg) as (Hc & Hl & Hr & Hn).
  split; [now rewrite Ec | split; [now rewrite Ec | ]].
  split; [now rewrite Ec, Eo | split; [now rewrite Ec, Er | ]].
  intros pre ev post p Ht Hev.
  set (a := fun q ev' =>
              match ev' with
              | CheckIsfile q' true => (q' =? q)%string
              | _ => false
              end).
  assert (Hin : forall q, existsb (a q) pre = true ->
                          In (CheckIsfile q true) pre).
  { intros q Hq. apply existsb_exists in Hq as (x & Hx & Hax).
    destruct x; try discriminate Hax. cbn in Hax.
    destruct result; [ | discriminate Hax].
    apply String.eqb_eq in Hax. now subst. }
  destruct (resolve_events_quiet w args) as (_ & _ & _ & _ & Hq).
  destruct Hev as [-> | ->].
  - assert (Hp : p = cfg.(model).(model_load_weights)).
    { apply Hl. unfold cfg. rewrite <- Eo, Ht. unfold loads.
      rewrite flat_map_app. apply in_or_app. right. now left. }
    apply Hin. subst p.
    refine (preceded_by_sound _ is_load _ _ _ _ _ Ht eq_refl).
    rewrite main_trace. apply preceded_by_app; [apply Hq; cbn; tauto | ].
    apply run_load_after_check. cbn. apply String.eqb_refl.
  - assert (Hp : p = cfg.(model).(model_resume)).
    { apply Hr. unfold cfg. rewrite <- Er, Ht. unfold resumes.
      rewrite flat_map_app. apply in_or_app. right. now left. }
    apply Hin. subst p.
    refine (preceded_by_sound _ is_resume _ _ _ _ _ Ht eq_refl).
    rewrite main_trace. apply preceded_by_app; [apply Hq; cbn; tauto | ].
    apply run_resume_after_check. cbn. apply String.eqb_refl.
Qed.

Lemma files_are_checked_before_use_witness :
  In (CheckIsfile "log/model.pth.tar-10" true)
     (firstn 13 (trace (main (sample_world false resume_config) no_args))).
Proof.
  destruct (files_are_checked_before_use
              (sample_world false resume_config) no_args)
    as (_ & _ & _ & _ & H).
  apply (H _ (ResumeFromCheckpoint "log/model.pth.tar-10")
           (skipn 14
              (trace (main (sample_world false resume_config) no_args)))).
  - reflexivity.
  - right. reflexivity.
Defined.

(** X12: the model is wrapped in [DataParallel] and moved to the GPU
    exactly when the resolved [cfg.use_gpu] is true, and at most once. *)
Theorem model_is_wrapped_iff_use_gpu w args :
  (In DataParallelCuda (trace (main w args)) <->
   (resolved w args).(use_gpu) = true) /\
  (length (filter is_wrap (trace (main w args))) <= 1)%nat.
Proof.
  destruct (run_wraps_iff_use_gpu w (resolved w args)) as [Hi Hn].
  split.
  - rewrite in_main_trace, <- Hi. split; [ | now right].
    intros [Hin | Hin]; [ | exact Hin].
    apply in_resolve_events in Hin. intuition discriminate.
  - rewrite main_trace, filter_app, length_app.
    replace (filter is_wrap (resolve_events w args)) with (@nil Event);
      [exact Hn | ].
    unfold resolve_events.
    destruct (str_truthy (config_file args)); reflexivity.
Qed.

(** X13: a run constructs at most one engine and calls [run] at most once;
    when [run] is called, it is called on the engine that was constructed,
    and the call is the last thing [main] does. *)
Theorem run_is_called_last_on_the_built_engine w args :
  let t := trace (main w args) in
  (length (engines_built t) <= 1)%nat /\
  (length (run_calls t) <= 1)%nat /\
  (forall e kw, In (e, kw) (run_calls t) ->
     engines_built t = [e] /\
     exists pre, t = (pre ++ [EngineRun e kw])%list /\ run_calls pre = []).
Proof.
  intros t. subst t.
  destruct (main_readings w args) as (_ & _ & _ & _ & _ & Ee & Er).
  destruct (run_engine_last w (resolved w args)) as (He & Hr & Hl).
  rewrite Ee, Er. split; [exact He | split; [exact Hr | ]].
  intros e kw Hin. destruct (Hl e kw Hin) as (H1 & pre & Ht & Hp).
  split; [exact H1 | ].
  exists (resolve_events w args ++ pre)%list. split.
  - now rewrite main_trace, Ht, app_assoc.
  - destruct (resolve_events_readings w args) as (_ & _ & _ & _ & _ & _ & E0).
    unfold run_calls in *. now rewrite flat_map_app, E0, Hp.
Qed.

(** X14: every engine a run constructs agrees with the model it holds: the
    engine's [use_gpu], the [use_gpu] the model was built with and whether
    the model is wrapped for the GPU are all the resolved [cfg.use_gpu];
    the model was built for [model.name] and [loss.name]; in training the
    engine is the variant of that same loss name, in evaluation it is the
    inference engine. *)
Theorem engine_and_model_agree w args :
  let cfg := resolved w args in
  forall e, In e (engines_built (trace (main w args))) ->
    engine_use_gpu e = cfg.(use_gpu) /\
    (engine_model e).(built_with).(bm_use_gpu) = cfg.(use_gpu) /\
    (engine_model e).(data_parallel_cuda) = cfg.(use_gpu) /\
    (engine_model e).(built_with).(bm_loss) = cfg.(loss).(loss_name) /\
    (engine_model e).(built_with).(bm_name) = cfg.(model).(model_name) /\
    (cfg.(data).(data_is_train) = true ->
     spec_variant (engine_model e).(built_with).(bm_loss)
     = Some (engine_kind e)) /\
    (cfg.(data).(data_is_train) = false -> engine_kind e = KInference).
Proof.
  intros cfg e Hin.
  destruct (main_readings w args) as (_ & _ & _ & _ & _ & Ee & _).
  rewrite Ee in Hin.
  destruct (run_engine_consistent w cfg e Hin)
    as (H1 & H2 & H3 & H4 & H5 & H6 & H7).
  rewrite H4. repeat split; assumption.
Qed.

Lemma engine_and_model_agree_witness :
  exists e,
    In e (engines_built
            (trace (main (sample_world true center_config) no_args))) /\
    engine_use_gpu e = true /\
    (engine_model e).(data_parallel_cuda) = true /\
    engine_kind e = KCenter.
Proof.
  eexists. split; [vm_compute; left; reflexivity | ].
  edestruct (engine_and_model_agree (sample_world true center_config)
               no_args) as (H1 & _ & H3 & H4 & _ & H6 & _).
  - left. reflexivity.
  - split; [exact H1 | split; [exact H3 | reflexivity]].
Defined.

(** X15: the order of the set-up.  Pretrained weights are loaded into the
    model after it is built and before it is wrapped for the GPU or handed
    to an optimizer; the model is wrapped before the optimizer is built; a
    checkpoint is restored only after both the optimizer and the scheduler
    exist, and before any engine is constructed. *)
Theorem setup_steps_are_ordered w args pre ev post :
  trace (main w args) = (pre ++ ev :: post)%list ->
  (is_load ev = true ->
   existsb is_build_model pre = true /\
   existsb is_wrap pre = false /\
   existsb is_build_optimizer pre = false) /\
  (is_wrap ev = true -> existsb is_build_optimizer pre = false) /\
  (is_resume ev = true ->
   existsb is_build_optimizer pre = true /\
   existsb is_build_lr_scheduler pre = true /\
   existsb is_new_engine pre = false).
Proof.
  intros Ht.
  destruct (run_order w (resolved w args))
    as (O1 & O2 & O3 & O4 & O5 & O6 & O7).
  destruct (resolve_events_quiet w args) as (_ & _ & _ & _ & Hq).
  assert (Q : forall f,
             In f [is_build_model; is_load; is_wrap; is_build_optimizer;
                   is_build_lr_scheduler; is_resume; is_new_engine] ->
             existsb f (resolve_events w args) = false) by exact Hq.
  rewrite main_trace in Ht.
  assert (P : forall a b,
             existsb b (resolve_events w args) = false ->
             preceded_by a b (trace (run_configured w (resolved w args)))
             = true ->
             b ev = true -> existsb a pre = true).
  { intros a b Hb Hp Hev.
    eapply preceded_by_sound; [ | exact Ht | exact Hev].
    now apply preceded_by_app. }
  assert (N : forall a b,
             existsb a (resolve_events w args) = false ->
             never_after a b (trace (run_configured w (resolved w args)))
             = true ->
             b ev = true -> existsb a pre = false).
  { intros a b Ha Hn Hev.
    eapply never_after_sound; [ | exact Ht | exact Hev].
    now apply never_after_app. }
  split; [ | split]; intros Hev.
  - split; [ | split].
    + apply (P _ is_load); [apply Q; cbn; tauto | exact O1 | exact Hev].
    + apply (N _ is_load); [apply Q; cbn; tauto | exact O2 | exact Hev].
    + apply (N _ is_load); [apply Q; cbn; tauto | exact O3 | exact Hev].
  - apply (N _ is_wrap); [apply Q; cbn; tauto | exact O4 | exact Hev].
  - split; [ | split].
    + apply (P _ is_resume); [apply Q; cbn; tauto | exact O5 | exact Hev].
    + apply (P _ is_resume); [apply Q; cbn; tauto | exact O6 | exact Hev].
    + apply (N _ is_resume); [apply Q; cbn; tauto | exact O7 | exact Hev].
Qed.

Lemma setup_steps_are_ordered_witness :
  existsb is_build_optimizer
    (firstn 13 (trace (main (sample_world false resume_config) no_args)))
  = true /\
  existsb is_new_engine
    (firstn 13 (trace (main (sample_world false resume_config) no_args)))
  = false.
Proof.
  destruct (setup_steps_are_ordered (sample_world false resume_config)
              no_args
              (firstn 13
                 (trace (main (sample_world false resume_config) no_args)))
              (ResumeFromCheckpoint "log/model.pth.tar-10")
              (skipn 14
                 (trace (main (sample_world false resume_config) no_args)))
              eq_refl) as (_ & _ & H).
  destruct (H eq_refl) as (Ho & _ & He). split; [exact Ho | exact He].
Defined.

(** X16: the only [UnboundLocalError] a run can end with is the one for
    [engine], and only in training with a loss name outside the four
    supported ones; an evaluation run, or a training run with a supported
    loss name, never ends with it. *)
Theorem unbound_engine_only_in_training_with_unsupported_loss w args name :
  outcome (main w args) = inl (UnboundLocalError name) ->
  name = "engine" /\
  (resolved w args).(data).(data_is_train) = true /\
  supported_loss (resolved w args).(loss).(loss_name) = false.
Proof.
  rewrite main_outcome. apply run_unbound_only.
Qed.

Lemma unbound_engine_only_in_training_with_unsupported_loss_witness :
  focal_config.(data).(data_is_train) = true /\
  supported_loss focal_config.(loss).(loss_name) = false.
Proof.
  destruct (unbound_engine_only_in_training_with_unsupported_loss
              (sample_world false focal_config) no_args "engine" eq_refl)
    as (_ & Ht & Hs).
  split; [exact Ht | exact Hs].
Defined.
